(** * RTCSwitchServer: the room registry of [main.go], embedded and verified

    The server keeps a map from room identifiers to rooms and serves three
    HTTP handlers over it.  Handlers are embedded as functions from the
    request, the values the handler reads from its environment (the random
    draw, the clock, the order in which [range] visits the map) and the
    map, to the response and the new map. *)

From Stdlib Require Import ZArith Ascii String List Sorting.Sorted.
From stdpp Require Import base option list sorting strings gmap fin_maps.

Local Open Scope string_scope.
Local Open Scope Z_scope.

(** ** Library functions of the Go runtime

    [strings.ToLower] leaves its ASCII-only fast path for texts holding a
    byte of 0x80 or more, which it lowers through the Unicode tables;
    [encoding/json] matches an object key with a struct field exactly or,
    failing that, ignoring case.  The tables behind both are not part of the
    repository and are taken as an interface. *)

Class GoRuntime := {
  (** [strings.Map(unicode.ToLower, s)] *)
  MapToLower : string → string;
  (** the case-insensitive comparison of a field name with an object key *)
  foldMatch : string → string → bool
}.

(** A runtime for ASCII-only traffic: it never rewrites a text with a high
    byte and folds no key. *)
Definition asciiRuntime : GoRuntime :=
  {| MapToLower := λ s, s; foldMatch := λ _ _, false |}.

Module GoStrings.

(** [c >= utf8.RuneSelf] negated: the byte is below 0x80. *)
Definition isASCIIByte (c : ascii) : bool := (N_of_ascii c <? 128)%N.

(** ['A' <= c && c <= 'Z'] *)
Definition isUpperByte (c : ascii) : bool :=
  ((65 <=? N_of_ascii c) && (N_of_ascii c <=? 90))%N.

(** [c += 'a' - 'A'] for an upper-case byte *)
Definition lowerByte (c : ascii) : ascii :=
  if isUpperByte c then ascii_of_N (N_of_ascii c + 32) else c.

Fixpoint isASCII (s : string) : bool :=
  match s with
  | EmptyString => true
  | String c s' => isASCIIByte c && isASCII s'
  end.

Fixpoint hasUpper (s : string) : bool :=
  match s with
  | EmptyString => false
  | String c s' => isUpperByte c || hasUpper s'
  end.

Fixpoint lowerASCII (s : string) : string :=
  match s with
  | EmptyString => EmptyString
  | String c s' => String (lowerByte c) (lowerASCII s')
  end.

(** [strings.ToLower]: an ASCII-only text is returned as it is when it has
    no upper-case byte and lowered byte by byte otherwise; any other text
    goes through the Unicode mapping. *)
Definition ToLower `{GoRuntime} (s : string) : string :=
  if isASCII s then
    if hasUpper s then lowerASCII s else s
  else MapToLower s.

(** Case-insensitive match of two texts in the plain sense: same length,
    and at each position the same byte or the two cases of one ASCII
    letter. *)
Definition sameLetter (c d : ascii) : bool :=
  if Ascii.eqb c d then true
  else if isUpperByte c then Ascii.eqb (lowerByte c) d
  else if isUpperByte d then Ascii.eqb c (lowerByte d)
  else false.

Fixpoint equalFoldASCII (s t : string) : bool :=
  match s, t with
  | EmptyString, EmptyString => true
  | String c s', String d t' => sameLetter c d && equalFoldASCII s' t'
  | _, _ => false
  end.

End GoStrings.

(** ** Data model *)

(** [type RTCType string], [type RoomType string] *)
Definition RTCType := string.
Definition RTC_TRTC : RTCType := "TRTC".
Definition RTC_AGORA : RTCType := "Agora".

Definition RoomType := string.
Definition RoomLive : RoomType := "Live".
Definition RoomAudio : RoomType := "Audio".

(** [type Room struct]; [CreateTime] is an [int64]. *)
Record Room := {
  Room_RoomID : string;
  Room_OwnerUserID : string;
  Room_CreateTime : Z;
  Room_RoomType : RoomType;
  Room_RTCType : RTCType
}.

Record CreateRoomRequest := {
  Create_UserID : string;
  Create_RoomType : string
}.

Record DestroyRoomRequest := {
  Destroy_RoomID : string
}.

(** [rooms = make(map[string]Room)] *)
Abbreviation Store := (gmap string Room).

Definition emptyStore : Store := ∅.

(** ** RTC selection *)

(** The arm of the [switch] in [chooseRTC] that a draw selects. *)
Inductive SwitchArm := ArmTRTC | ArmAgora | ArmDefault.

Definition chooseRTC_arm (u : Z) : SwitchArm :=
  if (u =? 0) || (u =? 1) || (u =? 2) || (u =? 3) || (u =? 4) || (u =? 5)
  then ArmTRTC
  else if (u =? 6) || (u =? 7) || (u =? 8) || (u =? 9)
  then ArmAgora
  else ArmDefault.

(** [chooseRTC], as a function of the value [u] that [rand.Intn(10)]
    returned. *)
Definition chooseRTC (u : Z) : RTCType :=
  match chooseRTC_arm u with
  | ArmTRTC => RTC_TRTC
  | ArmAgora => RTC_AGORA
  | ArmDefault => RTC_TRTC
  end.

(** The values [rand.Intn(10)] can return. *)
Definition isDraw (u : Z) : Prop := 0 ≤ u < 10.

Definition generateRoomID (userid : string) : string := "rm_" +:+ userid.

(** ** Request bodies

    A body is the JSON value that [json.NewDecoder(r.Body).Decode] reads, or
    nothing when the bytes, an empty body among them, do not start with a
    JSON value.  Numbers keep their text. *)

Module Json.

#[warnings="-register-all"] Inductive value :=
| JNull
| JBool (b : bool)
| JNumber (literal : string)
| JString (s : string)
| JArray (items : list value)
| JObject (members : list (string * value)).

(** The field of a struct, given by its tag, that receives a key: the one
    whose tag is the key, else the first whose tag matches it ignoring
    case. *)
Definition findField `{GoRuntime} (tags : list string) (key : string)
  : option string :=
  match list_find (λ t, t = key) tags with
  | Some (_, t) => Some t
  | None => snd <$> list_find (λ t, foldMatch t key = true) tags
  end.

(** Decoding the members of an object, in order, into the string fields
    of a struct: a string is stored, [null] leaves the field alone, any
    other value is a type error, which is remembered while decoding goes
    on; keys of no field are skipped. *)
Fixpoint decodeMembers `{GoRuntime} (tags : list string)
    (members : list (string * value))
    (fields : gmap string string) (ok : bool) : gmap string string * bool :=
  match members with
  | [] => (fields, ok)
  | (key, v) :: rest =>
      match findField tags key with
      | None => decodeMembers tags rest fields ok
      | Some t =>
          match v with
          | JString s => decodeMembers tags rest (<[t := s]> fields) ok
          | JNull => decodeMembers tags rest fields ok
          | _ => decodeMembers tags rest fields false
          end
      end
  end.

(** [Decode] into a struct of string fields: the fields the body sets, or
    nothing when [Decode] returns an error. *)
Definition Decode `{GoRuntime} (tags : list string) (body : option value)
  : option (gmap string string) :=
  match body with
  | None => None
  | Some JNull => Some ∅
  | Some (JObject members) =>
      let '(fields, ok) := decodeMembers tags members ∅ true in
      if ok then Some fields else None
  | Some _ => None
  end.

(** A field the body did not set keeps the zero value of [var req]. *)
Definition field (fields : gmap string string) (tag : string) : string :=
  default "" (fields !! tag).

(** The object has no member that the field with this tag receives. *)
Definition omits `{GoRuntime} (tags : list string) (tag : string)
    (members : list (string * value)) : Prop :=
  ∀ key v, (key, v) ∈ members → findField tags key ≠ Some tag.

End Json.

Definition decodeCreateRoomRequest `{GoRuntime} (body : option Json.value)
  : option CreateRoomRequest :=
  (λ fields, {| Create_UserID := Json.field fields "userid";
                Create_RoomType := Json.field fields "room_type" |})
    <$> Json.Decode ["userid"; "room_type"] body.

Definition decodeDestroyRoomRequest `{GoRuntime} (body : option Json.value)
  : option DestroyRoomRequest :=
  (λ fields, {| Destroy_RoomID := Json.field fields "room_id" |})
    <$> Json.Decode ["room_id"] body.

(** ** HTTP requests and responses *)

Record HttpRequest := {
  Method : string;
  Body : option Json.value
}.

Definition MethodGet : string := "GET".
Definition MethodPost : string := "POST".
Definition StatusBadRequest : Z := 400.
Definition StatusNotFound : Z := 404.
Definition StatusMethodNotAllowed : Z := 405.

(** What a handler writes: [http.Error(w, msg, code)], or the value handed
    to [json.NewEncoder(w).Encode] with status 200. *)
Inductive HttpResponse :=
| Error (msg : string) (code : Z)
| EncodeRoom (room : Room)
| EncodeMap (m : list (string * string))
| EncodeRooms (list : list Room).

(** ** Sorting

    [sort.Slice] sorts by insertion the slices short enough and by a
    pattern-defeating quicksort the longer ones; the embedding is the
    insertion sort, [insertionSortLessFunc]:
    [for i := a+1; i < b; i++ { for j := i; j > a && less(j, j-1); j-- { swap(j, j-1) } }]. *)

(** The inner loop.  [before] is [data[a..i-1]] read from the right, so its
    head is [data[j-1]]; the result is [data[a..i]] read from the right. *)
Fixpoint sink {A} (less : A → A → bool) (x : A) (before : list A) : list A :=
  match before with
  | [] => [x]
  | y :: before' =>
      if less x y then y :: sink less x before' else x :: y :: before'
  end.

Definition insertionSort {A} (less : A → A → bool) (data : list A) : list A :=
  rev (fold_left (λ before x, sink less x before) data []).

Definition sortSlice {A} (less : A → A → bool) (data : list A) : list A :=
  insertionSort less data.

(** [list[i].CreateTime > list[j].CreateTime] *)
Definition lessCreateTime (a b : Room) : bool :=
  Room_CreateTime a >? Room_CreateTime b.

(** The two readings of "sorted by creation time": newest first, as the
    list is returned, and oldest first, as the inner loop of the sort sees
    the part already sorted. *)
Definition newestFirst (a b : Room) : Prop :=
  Room_CreateTime a >= Room_CreateTime b.

Definition oldestFirst (a b : Room) : Prop :=
  Room_CreateTime a ≤ Room_CreateTime b.

(** ** Handlers *)

(** Lines 90-93 of [createRoomHandler]. *)
Definition roomTypeOf `{GoRuntime} (room_type : string) : RoomType :=
  if String.eqb (GoStrings.ToLower room_type) "audio" then RoomAudio
  else RoomLive.

(** The room that [createRoomHandler] builds from a decoded request, the
    draw [u] of [chooseRTC] and the clock [now]. *)
Definition newRoom `{GoRuntime} (req : CreateRoomRequest) (u now : Z) : Room :=
  {| Room_RoomID := generateRoomID (Create_UserID req);
     Room_OwnerUserID := Create_UserID req;
     Room_CreateTime := now;
     Room_RoomType := roomTypeOf (Create_RoomType req);
     Room_RTCType := chooseRTC u |}.

Definition createRoomHandler `{GoRuntime} (r : HttpRequest) (u now : Z)
    (rooms : Store) : HttpResponse * Store :=
  if negb (String.eqb (Method r) MethodPost) then
    (Error "method not allowed" StatusMethodNotAllowed, rooms)
  else
    match decodeCreateRoomRequest (Body r) with
    | None => (Error "invalid request" StatusBadRequest, rooms)
    | Some req =>
        let rt := roomTypeOf (Create_RoomType req) in
        let id := generateRoomID (Create_UserID req) in
        let rtc := chooseRTC u in
        let room := {| Room_RoomID := id;
                       Room_OwnerUserID := Create_UserID req;
                       Room_CreateTime := now;
                       Room_RoomType := rt;
                       Room_RTCType := rtc |} in
        (EncodeRoom room, <[id := room]> rooms)
    end.

Definition destroyRoomHandler `{GoRuntime} (r : HttpRequest) (rooms : Store)
  : HttpResponse * Store :=
  if negb (String.eqb (Method r) MethodPost) then
    (Error "method not allowed" StatusMethodNotAllowed, rooms)
  else
    match decodeDestroyRoomRequest (Body r) with
    | None => (Error "invalid request" StatusBadRequest, rooms)
    | Some req =>
        match rooms !! Destroy_RoomID req with
        | None => (Error "room not found" StatusNotFound, rooms)
        | Some _ =>
            (EncodeMap [("result", "ok")], delete (Destroy_RoomID req) rooms)
        end
    end.

(** [for _, v := range rooms] visits every entry once, in an order the
    language leaves open: [visit] is the sequence of values it yields. *)
Definition rangeOver (rooms : Store) (visit : list Room) : Prop :=
  visit ≡ₚ (map_to_list rooms).*2.

(** [list = append(list, v)] for each visited value *)
Definition collect (visit : list Room) : list Room :=
  fold_left (λ list v, (list ++ [v])%list) visit [].

Definition listRoomsHandler (r : HttpRequest) (visit : list Room)
    (rooms : Store) : HttpResponse * Store :=
  if negb (String.eqb (Method r) MethodGet) then
    (Error "method not allowed" StatusMethodNotAllowed, rooms)
  else
    (EncodeRooms (sortSlice lessCreateTime (collect visit)), rooms).

(** ** The server as a transition system

    A handler reads and writes the map inside one critical section of
    [roomsMu], and what it does outside does not depend on the map, so the
    requests act on the store one after the other, in the order of their
    critical sections. *)

Inductive Call :=
| CallCreate (r : HttpRequest)
| CallDestroy (r : HttpRequest)
| CallList (r : HttpRequest).

Inductive step `{GoRuntime} : Store → Call → HttpResponse → Store → Prop :=
| step_create rooms r u now :
    isDraw u →
    step rooms (CallCreate r)
      (createRoomHandler r u now rooms).1 (createRoomHandler r u now rooms).2
| step_destroy rooms r :
    step rooms (CallDestroy r)
      (destroyRoomHandler r rooms).1 (destroyRoomHandler r rooms).2
| step_list rooms r visit :
    rangeOver rooms visit →
    step rooms (CallList r)
      (listRoomsHandler r visit rooms).1 (listRoomsHandler r visit rooms).2.

(** The stores the server can be in: it starts with an empty map. *)
Inductive reachable `{GoRuntime} : Store → Prop :=
| reachable_init : reachable emptyStore
| reachable_step rooms call resp rooms' :
    reachable rooms → step rooms call resp rooms' → reachable rooms'.

(** Every entry is filed under its own identifier, which is the owner's
    identifier behind the prefix. *)
Definition storeInv (rooms : Store) : Prop :=
  ∀ key room, rooms !! key = Some room →
    key = Room_RoomID room ∧
    Room_RoomID room = "rm_" +:+ Room_OwnerUserID room.

(** The requests of the scenarios *)
Definition postCreate (userid room_type : string) : HttpRequest :=
  {| Method := MethodPost;
     Body := Some (Json.JObject [("userid", Json.JString userid);
                                ("room_type", Json.JString room_type)]) |}.

Definition postDestroy (room_id : string) : HttpRequest :=
  {| Method := MethodPost;
     Body := Some (Json.JObject [("room_id", Json.JString room_id)]) |}.

Definition getList : HttpRequest := {| Method := MethodGet; Body := None |}.

(** Users "1", "2" and "3" each create a room, at seconds 100, 200 and
    300, on a server that has just started. *)
Definition threeRooms : Store :=
  let one :=
    (createRoomHandler (H := asciiRuntime) (postCreate "1" "Live") 0 100
       emptyStore).2 in
  let two :=
    (createRoomHandler (H := asciiRuntime) (postCreate "2" "audio") 6 200
       one).2 in
  (createRoomHandler (H := asciiRuntime) (postCreate "3" "Live") 9 300 two).2.

(** ** Routing

    [main] registers the three handlers on a [http.ServeMux] under patterns
    without a trailing slash, and such a pattern matches a request path that
    equals it, whatever the method.  What the mux answers to a path that
    matches no pattern (not found, or a redirect to the cleaned path) is
    the library's choice and is left open as [unmatched]; it cannot touch
    the map. *)
Definition serve `{GoRuntime} (unmatched : string → HttpResponse)
    (path : string) (r : HttpRequest) (u now : Z) (visit : list Room)
    (rooms : Store) : HttpResponse * Store :=
  if String.eqb path "/room/create" then createRoomHandler r u now rooms
  else if String.eqb path "/room/destroy" then destroyRoomHandler r rooms
  else if String.eqb path "/room/list" then listRoomsHandler r visit rooms
  else (unmatched path, rooms).

(** The method the handler behind each registered path lets through. *)
Definition routeMethod (path : string) : option string :=
  if String.eqb path "/room/create" then Some MethodPost
  else if String.eqb path "/room/destroy" then Some MethodPost
  else if String.eqb path "/room/list" then Some MethodGet
  else None.

(** The values of the two enumerations as they go on the wire. *)
Definition wireValues (room : Room) : Prop :=
  (Room_RoomType room = RoomLive ∨ Room_RoomType room = RoomAudio) ∧
  (Room_RTCType room = RTC_TRTC ∨ Room_RTCType room = RTC_AGORA).

(** No two entries of the store were created in the same second. *)
Definition distinctCreateTimes (rooms : Store) : Prop :=
  ∀ key1 key2 room1 room2,
    rooms !! key1 = Some room1 → rooms !! key2 = Some room2 →
    Room_CreateTime room1 = Room_CreateTime room2 → key1 = key2.

(** A JSON value that [Decode] refuses for a string field. *)
Definition notStringOrNull (v : Json.value) : Prop :=
  match v with
  | Json.JString _ | Json.JNull => False
  | _ => True
  end.

(** ** Histories

    The requests the server has answered since it started, latest first,
    each with its response, and the store they led to. *)
Inductive runs `{GoRuntime} : list (Call * HttpResponse) → Store → Prop :=
| runs_start : runs [] emptyStore
| runs_step log rooms call resp rooms' :
    runs log rooms → step rooms call resp rooms' →
    runs ((call, resp) :: log) rooms'.

(** A create request answered with a room; a destroy request answered with
    the acknowledgement. *)
Definition isCreated (entry : Call * HttpResponse) : bool :=
  match entry with
  | (CallCreate _, EncodeRoom _) => true
  | _ => false
  end.

Definition isDestroyed (entry : Call * HttpResponse) : bool :=
  match entry with
  | (CallDestroy _, EncodeMap _) => true
  | _ => false
  end.

Definition countWhere {A} (p : A → bool) (l : list A) : nat :=
  length (List.filter p l).

(** ** The Unicode path of [strings.ToLower]

    For a text with a byte of 0x80 or more [strings.ToLower] returns
    [strings.Map(unicode.ToLower, s)]: the text is read rune by rune as
    [range] and [utf8.DecodeRuneInString] read it, each rune is lowered and
    written back in UTF-8. *)

Module Utf8.

Definition RuneError : Z := 65533.
Definition MaxRune : Z := 1114111.

Definition byteOf (c : ascii) : Z := Z.of_N (N_of_ascii c).

(** [byte(x)]: the low eight bits of [x] *)
Definition toByte (x : Z) : ascii := ascii_of_N (Z.to_N (Z.land x 255)).

(** The table [first] with [acceptRanges], for a first byte of 0x80 or
    more: the length of the sequence it starts and the bounds of its second
    byte, or nothing when no sequence starts with it. *)
Definition lead (b0 : Z) : option (Z * Z * Z) :=
  if b0 <? 194 then None
  else if b0 <=? 223 then Some (2, 128, 191)
  else if b0 =? 224 then Some (3, 160, 191)
  else if b0 <=? 236 then Some (3, 128, 191)
  else if b0 =? 237 then Some (3, 128, 159)
  else if b0 <=? 239 then Some (3, 128, 191)
  else if b0 =? 240 then Some (4, 144, 191)
  else if b0 <=? 243 then Some (4, 128, 191)
  else if b0 =? 244 then Some (4, 128, 143)
  else None.

(** [s < locb || hicb < s] negated: a continuation byte *)
Definition isContinuation (b : Z) : bool := (128 <=? b) && (b <=? 191).

(** [utf8.DecodeRuneInString]: the first rune of the text and the number of
    bytes it takes; a byte that starts no valid sequence is [RuneError] of
    width 1. *)
Definition DecodeRuneInString (s : string) : Z * nat :=
  match s with
  | EmptyString => (RuneError, 0%nat)
  | String c0 s1 =>
      let b0 := byteOf c0 in
      if b0 <? 128 then (b0, 1%nat)
      else
        match lead b0, s1 with
        | Some (sz, lo, hi), String c1 s2 =>
            let b1 := byteOf c1 in
            if (b1 <? lo) || (hi <? b1) then (RuneError, 1%nat)
            else if sz <=? 2 then
              (Z.lor (Z.shiftl (Z.land b0 31) 6) (Z.land b1 63), 2%nat)
            else
              match s2 with
              | String c2 s3 =>
                  let b2 := byteOf c2 in
                  if negb (isContinuation b2) then (RuneError, 1%nat)
                  else if sz <=? 3 then
                    (Z.lor (Z.lor (Z.shiftl (Z.land b0 15) 12)
                                  (Z.shiftl (Z.land b1 63) 6))
                           (Z.land b2 63), 3%nat)
                  else
                    match s3 with
                    | String c3 _ =>
                        let b3 := byteOf c3 in
                        if negb (isContinuation b3) then (RuneError, 1%nat)
                        else
                          (Z.lor (Z.lor (Z.lor (Z.shiftl (Z.land b0 7) 18)
                                               (Z.shiftl (Z.land b1 63) 12))
                                        (Z.shiftl (Z.land b2 63) 6))
                                 (Z.land b3 63), 4%nat)
                    | EmptyString => (RuneError, 1%nat)
                    end
              | EmptyString => (RuneError, 1%nat)
              end
        | _, _ => (RuneError, 1%nat)
        end
  end.

Definition encode3 (r : Z) : string :=
  String (toByte (Z.lor 224 (Z.shiftr r 12)))
    (String (toByte (Z.lor 128 (Z.land (Z.shiftr r 6) 63)))
       (String (toByte (Z.lor 128 (Z.land r 63))) EmptyString)).

(** [utf8.AppendRune] to an empty buffer, for a rune that is not negative *)
Definition AppendRune (r : Z) : string :=
  if r <=? 127 then String (toByte r) EmptyString
  else if r <=? 2047 then
    String (toByte (Z.lor 192 (Z.shiftr r 6)))
      (String (toByte (Z.lor 128 (Z.land r 63))) EmptyString)
  else if (MaxRune <? r) || ((55296 <=? r) && (r <=? 57343)) then
    encode3 RuneError
  else if r <=? 65535 then encode3 r
  else
    String (toByte (Z.lor 240 (Z.shiftr r 18)))
      (String (toByte (Z.lor 128 (Z.land (Z.shiftr r 12) 63)))
         (String (toByte (Z.lor 128 (Z.land (Z.shiftr r 6) 63)))
            (String (toByte (Z.lor 128 (Z.land r 63))) EmptyString))).

End Utf8.

(** What [unicode.ToLower] does to the runes above ASCII other than U+0130
    and U+212A, the two that its table sends to an ASCII letter: a table of
    the library, of which it is used that it sends no other such rune into
    ASCII. *)
Record UnicodeTable := {
  lowerOther : Z → Z;
  lowerOther_above_ascii : ∀ r, 128 ≤ r → 128 ≤ lowerOther r
}.

(** [unicode.ToLower] *)
Definition unicodeToLower (table : UnicodeTable) (r : Z) : Z :=
  if r <=? 127 then
    if (65 <=? r) && (r <=? 90) then r + 32 else r
  else if r =? 304 then 105
  else if r =? 8490 then 107
  else lowerOther table r.

(** [strings.Map]: the runes of the text, each mapped and written back; a
    rune mapped to a negative value is dropped.  [skip] counts the bytes
    still to pass of the rune read last.  (The library returns the text
    itself when no rune changes, which is the same bytes, a valid sequence
    being the only one that decodes to its rune.) *)
Fixpoint mapRunes (mapping : Z → Z) (skip : nat) (s : string) : string :=
  match s with
  | EmptyString => EmptyString
  | String c rest =>
      match skip with
      | S k => mapRunes mapping k rest
      | O =>
          let '(r, width) := Utf8.DecodeRuneInString s in
          let m := mapping r in
          (if 0 <=? m then Utf8.AppendRune m else EmptyString)
          +:+ mapRunes mapping (width - 1) rest
      end
  end.

Definition Map (mapping : Z → Z) (s : string) : string := mapRunes mapping 0 s.

(** The runtime whose Unicode path is [strings.Map(unicode.ToLower, s)]
    over a table, with the key comparison of [encoding/json] left open. *)
Definition unicodeRuntime (table : UnicodeTable)
    (fold : string → string → bool) : GoRuntime :=
  {| MapToLower := Map (unicodeToLower table); foldMatch := fold |}.

(** A table that moves no rune but the ones [unicodeToLower] names. *)
Definition plainTable : UnicodeTable :=
  {| lowerOther := λ r, r; lowerOther_above_ascii := λ r Hr, Hr |}.

(** The bytes of U+0130, LATIN CAPITAL LETTER I WITH DOT ABOVE *)
Definition dottedCapitalI : string :=
  String (ascii_of_N 196) (String (ascii_of_N 176) EmptyString).

(** Case-insensitive match of a text with a lower-case ASCII text when the
    case of a letter is what [unicode.ToLower] removes: at each position the
    same ASCII letter in either case, or U+0130 where the other text has
    an i. *)
Fixpoint equalFoldLower (s t : string) : bool :=
  match t with
  | EmptyString => match s with EmptyString => true | _ => false end
  | String d t' =>
      match s with
      | EmptyString => false
      | String c s' =>
          if GoStrings.isASCIIByte c then
            Ascii.eqb (GoStrings.lowerByte c) d && equalFoldLower s' t'
          else
            match s' with
            | String c' s'' =>
                Ascii.eqb d "i" && Ascii.eqb c (ascii_of_N 196)
                && Ascii.eqb c' (ascii_of_N 176) && equalFoldLower s'' t'
            | EmptyString => false
            end
      end
  end.

(** The text starts with the bytes of U+0130. *)
Definition startsDotted (c : ascii) (s' : string) : Prop :=
  c = ascii_of_N 196 ∧ ∃ s'', s' = String (ascii_of_N 176) s''.

(** Targets: lower-case ASCII letters and other ASCII bytes that no
    rune above ASCII lowers to. *)
Fixpoint plainLower (t : string) : bool :=
  match t with
  | EmptyString => true
  | String d t' =>
      GoStrings.isASCIIByte d && negb (GoStrings.isUpperByte d)
      && negb (Ascii.eqb d "k") && plainLower t'
  end.

(** The number of arrays and objects open at once inside a JSON value, and
    the most that the scanner of [encoding/json] lets a body open. *)
Fixpoint nestingDepth (v : Json.value) : Z :=
  match v with
  | Json.JArray items =>
      1 + fold_right (λ item deepest, Z.max (nestingDepth item) deepest) 0 items
  | Json.JObject members =>
      1 + fold_right (λ member deepest, Z.max (nestingDepth member.2) deepest)
            0 members
  | _ => 0
  end.

Definition maxNestingDepth : Z := 10000.

(** * Properties *)

(** ** RTC selection *)

Lemma chooseRTC_arm_cases (u : Z) :
  (0 ≤ u ≤ 5 ∧ chooseRTC_arm u = ArmTRTC) ∨
  (6 ≤ u ≤ 9 ∧ chooseRTC_arm u = ArmAgora) ∨
  ((u < 0 ∨ 9 < u) ∧ chooseRTC_arm u = ArmDefault).
Proof.
  unfold chooseRTC_arm.
  destruct (decide (0 ≤ u ≤ 5)) as [Hlow|Hlow].
  - left. split; [done|].
    assert (u = 0 ∨ u = 1 ∨ u = 2 ∨ u = 3 ∨ u = 4 ∨ u = 5) as Hu by lia.
    destruct Hu as [->|[->|[->|[->|[->| ->]]]]]; reflexivity.
  - destruct (decide (6 ≤ u ≤ 9)) as [Hhigh|Hhigh].
    + right; left. split; [done|].
      assert (u = 6 ∨ u = 7 ∨ u = 8 ∨ u = 9) as Hu by lia.
      destruct Hu as [->|[->|[->| ->]]]; reflexivity.
    + right; right. split; [lia|].
      repeat match goal with
             | |- context [u =? ?n] => destruct (Z.eqb_spec u n); [lia|]
             end.
      reflexivity.
Qed.

Lemma chooseRTC_arm_default_iff (u : Z) :
  chooseRTC_arm u = ArmDefault ↔ ¬ isDraw u.
Proof.
  unfold isDraw.
  destruct (chooseRTC_arm_cases u) as [[? ->]|[[? ->]|[? ->]]];
    split; (done || lia).
Qed.

Lemma chooseRTC_either (u : Z) :
  chooseRTC u = RTC_TRTC ∨ chooseRTC u = RTC_AGORA.
Proof. unfold chooseRTC. destruct (chooseRTC_arm u); auto. Qed.

Lemma RTC_TRTC_AGORA_distinct : RTC_TRTC ≠ RTC_AGORA.
Proof. discriminate. Qed.

(** ** Decoding and the shape of the handlers' results *)

Section Handlers.
Context `{GoRuntime}.

Lemma decode_postCreate (userid room_type : string) :
  decodeCreateRoomRequest (Body (postCreate userid room_type))
  = Some {| Create_UserID := userid; Create_RoomType := room_type |}.
Proof.
  unfold decodeCreateRoomRequest, postCreate, Json.Decode, Json.field; simpl.
  unfold Json.findField; simpl.
  rewrite lookup_insert_ne by discriminate.
  by rewrite !lookup_insert_eq.
Qed.

Lemma decode_postDestroy (room_id : string) :
  decodeDestroyRoomRequest (Body (postDestroy room_id))
  = Some {| Destroy_RoomID := room_id |}.
Proof.
  unfold decodeDestroyRoomRequest, postDestroy, Json.Decode, Json.field; simpl.
  unfold Json.findField; simpl.
  by rewrite lookup_insert_eq.
Qed.

Lemma createRoomHandler_decoded r req u now (rooms : Store) :
  Method r = MethodPost →
  decodeCreateRoomRequest (Body r) = Some req →
  createRoomHandler r u now rooms
  = (EncodeRoom (newRoom req u now),
     <[generateRoomID (Create_UserID req) := newRoom req u now]> rooms).
Proof.
  intros Hm Hd. unfold createRoomHandler. by rewrite Hm, Hd.
Qed.

Lemma createRoomHandler_cases r u now (rooms : Store) :
  (∃ msg code, createRoomHandler r u now rooms = (Error msg code, rooms)) ∨
  (∃ req, createRoomHandler r u now rooms
          = (EncodeRoom (newRoom req u now),
             <[generateRoomID (Create_UserID req) := newRoom req u now]> rooms)).
Proof.
  unfold createRoomHandler.
  destruct (negb _); [left; eauto|].
  destruct (decodeCreateRoomRequest _) as [req|]; [right; eauto|left; eauto].
Qed.

Lemma destroyRoomHandler_decoded r req (rooms : Store) :
  Method r = MethodPost →
  decodeDestroyRoomRequest (Body r) = Some req →
  destroyRoomHandler r rooms
  = match rooms !! Destroy_RoomID req with
    | None => (Error "room not found" StatusNotFound, rooms)
    | Some _ => (EncodeMap [("result", "ok")], delete (Destroy_RoomID req) rooms)
    end.
Proof.
  intros Hm Hd. unfold destroyRoomHandler. by rewrite Hm, Hd.
Qed.

Lemma destroyRoomHandler_cases r (rooms : Store) :
  (destroyRoomHandler r rooms).2 = rooms ∨
  (∃ key, (destroyRoomHandler r rooms).2 = delete key rooms).
Proof.
  unfold destroyRoomHandler.
  destruct (negb _); [by left|].
  destruct (decodeDestroyRoomRequest _) as [req|]; [|by left].
  destruct (rooms !! _); [right; eauto|by left].
Qed.

End Handlers.

(** C1. Draws 0 to 5 select TRTC and draws 6 to 9 select Agora; whatever a
    create request holds, a room it returns is stored as returned and its
    RTC type is the one selected, TRTC or Agora and nothing else, and a
    request that returns no room leaves the store as it was. *)
Theorem C1_chooseRTC_split `{GoRuntime} (u : Z) (Hu : isDraw u) :
  (0 ≤ u ≤ 5 ∧ chooseRTC u = RTC_TRTC ∨ 6 ≤ u ≤ 9 ∧ chooseRTC u = RTC_AGORA) ∧
  RTC_TRTC ≠ RTC_AGORA ∧
  ∀ r now (rooms : Store),
    match createRoomHandler r u now rooms with
    | (EncodeRoom room, rooms') =>
        rooms' !! Room_RoomID room = Some room ∧
        Room_RTCType room = chooseRTC u ∧
        (Room_RTCType room = RTC_TRTC ∨ Room_RTCType room = RTC_AGORA)
    | (Error _ _, rooms') => rooms' = rooms
    | _ => False
    end.
Proof.
  split; [|split; [discriminate|]].
  - unfold chooseRTC.
    destruct (chooseRTC_arm_cases u) as [[? ->]|[[? ->]|[? ->]]]; auto.
    unfold isDraw in Hu; lia.
  - intros r now rooms.
    destruct (createRoomHandler_cases r u now rooms)
      as [(msg & code & ->)|(req & ->)]; [done|].
    simpl. split; [apply lookup_insert_eq|].
    split; [done|apply chooseRTC_either].
Qed.

(** C9. A draw in [0,9] always selects one of the two enumerated arms of the
    switch, never the default arm; the selection is a total function. *)
Theorem C9_default_arm_unreachable (u : Z) (Hu : isDraw u) :
  chooseRTC_arm u ≠ ArmDefault ∧
  (chooseRTC_arm u = ArmTRTC ∨ chooseRTC_arm u = ArmAgora) ∧
  ∃ rtc, chooseRTC u = rtc.
Proof.
  unfold isDraw in Hu.
  destruct (chooseRTC_arm_cases u) as [[? Ha]|[[? Ha]|[? Ha]]]; [| |lia];
    rewrite Ha; (split; [done|split; [auto|eauto]]).
Qed.

(** C7. The room identifier is the prefix "rm_" followed by the user
    identifier as given: a create request for any user identifier returns a
    room with that identifier behind the prefix and that owner, and user
    "5" gets room "rm_5". *)
Theorem C7_room_id_derivation `{GoRuntime} (userid room_type : string)
    (u now : Z) (rooms : Store) :
  generateRoomID userid = "rm_" +:+ userid ∧
  String.length (generateRoomID userid) = (3 + String.length userid)%nat ∧
  (∀ other, generateRoomID other = generateRoomID userid → other = userid) ∧
  (∃ room,
     (createRoomHandler (postCreate userid room_type) u now rooms).1
       = EncodeRoom room ∧
     Room_RoomID room = "rm_" +:+ userid ∧
     Room_OwnerUserID room = userid) ∧
  (∃ room,
     (createRoomHandler (postCreate "5" room_type) u now rooms).1
       = EncodeRoom room ∧
     Room_RoomID room = "rm_5" ∧
     Room_OwnerUserID room = "5").
Proof.
  split; [done|]. split; [done|].
  split; [intros other Heq; by injection Heq|].
  split.
  - eexists. rewrite (createRoomHandler_decoded (postCreate userid room_type)
                        _ u now rooms eq_refl
                        (decode_postCreate userid room_type)).
    simpl. eauto.
  - eexists. rewrite (createRoomHandler_decoded (postCreate "5" room_type)
                        _ u now rooms eq_refl
                        (decode_postCreate "5" room_type)).
    simpl. eauto.
Qed.

(** ** Room type normalisation *)

Lemma lowerASCII_no_upper (s : string) :
  GoStrings.hasUpper s = false → GoStrings.lowerASCII s = s.
Proof.
  induction s as [|c s IH]; simpl; [done|].
  intros [Hc Hs]%orb_false_elim.
  unfold GoStrings.lowerByte. rewrite Hc. by rewrite IH.
Qed.

Lemma ToLower_ASCII `{GoRuntime} (s : string) :
  GoStrings.isASCII s = true → GoStrings.ToLower s = GoStrings.lowerASCII s.
Proof.
  intros Hs. unfold GoStrings.ToLower. rewrite Hs.
  destruct (GoStrings.hasUpper s) eqn:Hu; [done|].
  by rewrite lowerASCII_no_upper.
Qed.

Lemma lowerByte_sameLetter (c d : ascii) :
  GoStrings.isUpperByte d = false →
  GoStrings.lowerByte c = d ↔ GoStrings.sameLetter c d = true.
Proof.
  intros Hd. unfold GoStrings.sameLetter.
  destruct (Ascii.eqb_spec c d) as [->|Hne].
  - unfold GoStrings.lowerByte. by rewrite Hd.
  - destruct (GoStrings.isUpperByte c) eqn:Hc.
    + by rewrite Ascii.eqb_eq.
    + rewrite Hd. unfold GoStrings.lowerByte. rewrite Hc. split; [done|discriminate].
Qed.

Lemma lowerASCII_equalFold (s t : string) :
  GoStrings.hasUpper t = false →
  GoStrings.lowerASCII s = t ↔ GoStrings.equalFoldASCII s t = true.
Proof.
  revert t. induction s as [|c s IH]; intros [|d t]; simpl; try done.
  intros [Hd Ht]%orb_false_elim.
  rewrite andb_true_iff, <- (IH t Ht), <- (lowerByte_sameLetter c d Hd).
  split; [by intros [= -> ->]|by intros [-> ->]].
Qed.

(** ** The Unicode path *)

Lemma byteOf_range (c : ascii) : 0 ≤ Utf8.byteOf c < 256.
Proof.
  unfold Utf8.byteOf. pose proof (N_ascii_bounded c) as Hb. lia.
Qed.

Lemma byteOf_inj (c d : ascii) : Utf8.byteOf c = Utf8.byteOf d → c = d.
Proof.
  unfold Utf8.byteOf. intros Heq%(inj Z.of_N).
  by rewrite <- (ascii_N_embedding c), <- (ascii_N_embedding d), Heq.
Qed.

Lemma byteOf_toByte (x : Z) : Utf8.byteOf (Utf8.toByte x) = Z.land x 255.
Proof.
  unfold Utf8.byteOf, Utf8.toByte.
  assert (0 ≤ Z.land x 255 < 256) as Hr.
  { change 255 with (Z.ones 8). rewrite Z.land_ones by lia.
    apply Z.mod_pos_bound. lia. }
  rewrite N_ascii_embedding by lia. lia.
Qed.

Lemma toByte_byteOf (c : ascii) : Utf8.toByte (Utf8.byteOf c) = c.
Proof.
  apply byteOf_inj. rewrite byteOf_toByte.
  pose proof (byteOf_range c) as Hr.
  change 255 with (Z.ones 8). rewrite Z.land_ones by lia.
  apply Z.mod_small. lia.
Qed.

Lemma isASCIIByte_byteOf (c : ascii) :
  GoStrings.isASCIIByte c = (Utf8.byteOf c <? 128).
Proof.
  unfold GoStrings.isASCIIByte, Utf8.byteOf.
  destruct (N.ltb_spec (N_of_ascii c) 128), (Z.ltb_spec (Z.of_N (N_of_ascii c)) 128);
    (done || lia).
Qed.

Lemma lor_lower (a b : Z) : 0 ≤ a → 0 ≤ b → a ≤ Z.lor a b.
Proof.
  intros Ha Hb.
  pose proof (Zbitwise.Z.add_lor_land a b) as Hadd.
  assert (Z.land a b ≤ b); [|lia].
  rewrite <- (Z2N.id a), <- (Z2N.id b) by done.
  rewrite <- N2Z.inj_land. apply N2Z.inj_le, N.land_le_r.
Qed.

Lemma range_check2 (p : Z → Z → bool) lo1 n1 lo2 n2 :
  forallb (λ x, forallb (p x) (seqZ lo2 n2)) (seqZ lo1 n1) = true →
  ∀ x y, lo1 ≤ x < lo1 + n1 → lo2 ≤ y < lo2 + n2 → p x y = true.
Proof.
  intros Hall x y Hx Hy.
  rewrite forallb_forall in Hall.
  specialize (Hall x). rewrite <- list_elem_of_In, elem_of_seqZ in Hall.
  specialize (Hall Hx). rewrite forallb_forall in Hall.
  apply Hall. rewrite <- list_elem_of_In, elem_of_seqZ. done.
Qed.

Lemma lead_cases (b0 sz lo hi : Z) :
  Utf8.lead b0 = Some (sz, lo, hi) →
  128 ≤ lo ∧ hi ≤ 191 ∧
  ((sz = 2 ∧ 194 ≤ b0 ≤ 223 ∧ lo = 128 ∧ hi = 191) ∨
   (sz = 3 ∧ 224 ≤ b0 ≤ 239 ∧ (b0 = 224 → lo = 160)) ∨
   (sz = 4 ∧ 240 ≤ b0 ≤ 244 ∧ (b0 = 240 → lo = 144))).
Proof.
  unfold Utf8.lead.
  repeat match goal with
         | |- context [?x <? ?n] => destruct (Z.ltb_spec x n)
         | |- context [?x <=? ?n] => destruct (Z.leb_spec x n)
         | |- context [?x =? ?n] => destruct (Z.eqb_spec x n)
         end;
    intros [= <- <- <-] || intros [=]; try lia.
Qed.

Lemma lead_none (b0 : Z) : Utf8.lead b0 = None → b0 ≠ 196.
Proof. by intros Hnone ->. Qed.

Lemma decode2_check :
  ∀ b0 b1, 194 ≤ b0 < 194 + 30 → 128 ≤ b1 < 128 + 64 →
    (let r := Z.lor (Z.shiftl (Z.land b0 31) 6) (Z.land b1 63) in
     (128 <=? r) && (bool_decide (r = 304 ↔ b0 = 196 ∧ b1 = 176))) = true.
Proof.
  apply (range_check2
           (λ b0 b1,
              let r := Z.lor (Z.shiftl (Z.land b0 31) 6) (Z.land b1 63) in
              (128 <=? r) && (bool_decide (r = 304 ↔ b0 = 196 ∧ b1 = 176)))).
  vm_compute. reflexivity.
Qed.

Lemma decode3_check :
  ∀ b0 b1, 224 ≤ b0 < 224 + 16 → 128 ≤ b1 < 128 + 64 →
    ((b0 =? 224) && (b1 <? 160)
     || (2048 <=? Z.lor (Z.shiftl (Z.land b0 15) 12)
                        (Z.shiftl (Z.land b1 63) 6))) = true.
Proof.
  apply (range_check2
           (λ b0 b1,
              (b0 =? 224) && (b1 <? 160)
              || (2048 <=? Z.lor (Z.shiftl (Z.land b0 15) 12)
                                 (Z.shiftl (Z.land b1 63) 6)))).
  vm_compute. reflexivity.
Qed.

Lemma decode4_check :
  ∀ b0 b1, 240 ≤ b0 < 240 + 5 → 128 ≤ b1 < 128 + 64 →
    ((b0 =? 240) && (b1 <? 144)
     || (2048 <=? Z.lor (Z.shiftl (Z.land b0 7) 18)
                        (Z.shiftl (Z.land b1 63) 12))) = true.
Proof.
  apply (range_check2
           (λ b0 b1,
              (b0 =? 240) && (b1 <? 144)
              || (2048 <=? Z.lor (Z.shiftl (Z.land b0 7) 18)
                                 (Z.shiftl (Z.land b1 63) 12)))).
  vm_compute. reflexivity.
Qed.

Lemma lor_above (k q x : Z) : 0 ≤ k → k ≤ q → 0 ≤ x → k ≤ Z.lor q x.
Proof.
  intros Hk Hq Hx. etrans; [exact Hq|]. apply lor_lower; lia.
Qed.

Lemma low_bits_nonneg (b n : Z) : 0 ≤ n → 0 ≤ Z.land b n.
Proof. intros Hn. apply Z.land_nonneg. by right. Qed.


Lemma startsDotted_bytes (c c1 : ascii) (s2 : string) :
  startsDotted c (String c1 s2) → Utf8.byteOf c = 196 ∧ Utf8.byteOf c1 = 176.
Proof. by intros [-> [s'' [= -> _]]]. Qed.

Lemma decode_high (c : ascii) (s' : string) :
  GoStrings.isASCIIByte c = false →
  (Utf8.DecodeRuneInString (String c s') = (304, 2%nat) ∧ startsDotted c s') ∨
  ((Utf8.DecodeRuneInString (String c s')).1 ≠ 304 ∧
   128 ≤ (Utf8.DecodeRuneInString (String c s')).1 ∧
   ¬ startsDotted c s').
Proof.
  rewrite isASCIIByte_byteOf. intros Hhigh.
  pose proof (byteOf_range c) as Hc.
  assert (Utf8.byteOf (ascii_of_N 196) = 196) as H196 by reflexivity.
  assert (Utf8.byteOf (ascii_of_N 176) = 176) as H176 by reflexivity.
  assert (∀ s'', Utf8.byteOf c ≠ 196 → ¬ startsDotted c s'') as Hnot.
  { intros s'' Hne [-> _]. by apply Hne. }
  unfold Utf8.DecodeRuneInString. rewrite Hhigh.
  destruct (Utf8.lead (Utf8.byteOf c)) as [[[sz lo] hi]|] eqn:Hlead;
    [|right; simpl; split; [done|split; [done|by apply Hnot, lead_none]]].
  apply lead_cases in Hlead as (Hlo & Hhi & Hsz).
  destruct s' as [|c1 s2].
  { right; simpl. split; [done|]. split; [done|]. by intros [_ [s'' ?]]. }
  pose proof (byteOf_range c1) as Hc1.
  destruct (Z.ltb_spec (Utf8.byteOf c1) lo) as [Hlow|Hlow]; simpl.
  { right; simpl. split; [done|]. split; [done|].
    intros [? ?]%startsDotted_bytes. destruct Hsz as [?|[?|?]]; lia. }
  destruct (Z.ltb_spec hi (Utf8.byteOf c1)) as [Hup|Hup]; simpl.
  { right; simpl. split; [done|]. split; [done|].
    intros [? ?]%startsDotted_bytes. destruct Hsz as [?|[?|?]]; lia. }
  destruct Hsz as [(-> & Hb0 & -> & ->)|[(-> & Hb0 & Hlo3)|(-> & Hb0 & Hlo4)]];
    simpl.
  - pose proof (decode2_check (Utf8.byteOf c) (Utf8.byteOf c1)
                  ltac:(lia) ltac:(lia)) as Hcheck.
    simpl in Hcheck. apply andb_prop in Hcheck as [Hge Hiff].
    apply Z.leb_le in Hge. apply bool_decide_eq_true in Hiff.
    destruct (decide (Z.lor (Z.shiftl (Z.land (Utf8.byteOf c) 31) 6)
                            (Z.land (Utf8.byteOf c1) 63) = 304)) as [Heq|Hne].
    + left. split; [by rewrite Heq|].
      apply Hiff in Heq as [Hb0' Hb1'].
      split; [by apply byteOf_inj|]. exists s2. f_equal. by apply byteOf_inj.
    + right. split; [done|]. split; [done|].
      intros Hd%startsDotted_bytes. by apply Hne, Hiff.
  - assert (2048 ≤ Z.lor (Z.shiftl (Z.land (Utf8.byteOf c) 15) 12)
                         (Z.shiftl (Z.land (Utf8.byteOf c1) 63) 6)) as Hq.
    { pose proof (decode3_check (Utf8.byteOf c) (Utf8.byteOf c1)
                    ltac:(lia) ltac:(lia)) as Hcheck.
      apply orb_prop in Hcheck as [[Heq Hlt]%andb_prop|Hge];
        [|by apply Z.leb_le].
      apply Z.eqb_eq in Heq. apply Z.ltb_lt in Hlt. lia. }
    assert (¬ startsDotted c (String c1 s2)) as Hnd by (apply Hnot; lia).
    destruct s2 as [|c2 s3]; [by right|].
    destruct (Utf8.isContinuation (Utf8.byteOf c2)); simpl; [|by right].
    pose proof (lor_above 2048 _ (Z.land (Utf8.byteOf c2) 63)
                  ltac:(lia) Hq (low_bits_nonneg _ 63 ltac:(lia))) as Hr.
    right. split; [simpl; lia|]. split; [simpl; lia|done].
  - assert (2048 ≤ Z.lor (Z.shiftl (Z.land (Utf8.byteOf c) 7) 18)
                         (Z.shiftl (Z.land (Utf8.byteOf c1) 63) 12)) as Hq.
    { pose proof (decode4_check (Utf8.byteOf c) (Utf8.byteOf c1)
                    ltac:(lia) ltac:(lia)) as Hcheck.
      apply orb_prop in Hcheck as [[Heq Hlt]%andb_prop|Hge];
        [|by apply Z.leb_le].
      apply Z.eqb_eq in Heq. apply Z.ltb_lt in Hlt. lia. }
    assert (¬ startsDotted c (String c1 s2)) as Hnd by (apply Hnot; lia).
    destruct s2 as [|c2 s3]; [by right|].
    destruct (Utf8.isContinuation (Utf8.byteOf c2)); simpl; [|by right].
    destruct s3 as [|c3 s4]; [by right|].
    destruct (Utf8.isContinuation (Utf8.byteOf c3)); simpl; [|by right].
    assert (0 ≤ Z.shiftl (Z.land (Utf8.byteOf c2) 63) 6) as Hmid.
    { apply Z.shiftl_nonneg, low_bits_nonneg. lia. }
    pose proof (lor_above 2048 _ _ ltac:(lia) Hq Hmid) as Hq'.
    pose proof (lor_above 2048 _ (Z.land (Utf8.byteOf c3) 63)
                  ltac:(lia) Hq' (low_bits_nonneg _ 63 ltac:(lia))) as Hr.
    right. split; [simpl; lia|]. split; [simpl; lia|done].
Qed.

Lemma toByte_lead_high (k y : Z) :
  128 ≤ k < 256 → GoStrings.isASCIIByte (Utf8.toByte (Z.lor k y)) = false.
Proof.
  intros Hk. rewrite isASCIIByte_byteOf, byteOf_toByte.
  apply Z.ltb_ge.
  rewrite Z.land_lor_distr_l.
  assert (Z.land k 255 = k) as ->.
  { change 255 with (Z.ones 8). rewrite Z.land_ones by lia.
    apply Z.mod_small. lia. }
  apply lor_above; [lia|lia|]. apply low_bits_nonneg. lia.
Qed.

Lemma AppendRune_high (m : Z) :
  128 ≤ m →
  ∃ c0 rest, Utf8.AppendRune m = String c0 rest ∧
             GoStrings.isASCIIByte c0 = false.
Proof.
  intros Hm. unfold Utf8.AppendRune, Utf8.encode3.
  destruct (Z.leb_spec m 127); [lia|].
  destruct (m <=? 2047); [eexists _, _; split; [done|]; by apply toByte_lead_high|].
  destruct (_ || _); [eexists _, _; split; [done|]; by apply toByte_lead_high|].
  destruct (m <=? 65535); eexists _, _; (split; [done|]);
    by apply toByte_lead_high.
Qed.

Lemma lower_ascii_byte (table : UnicodeTable) (c : ascii) :
  GoStrings.isASCIIByte c = true →
  0 ≤ unicodeToLower table (Utf8.byteOf c) ∧
  Utf8.AppendRune (unicodeToLower table (Utf8.byteOf c))
  = String (GoStrings.lowerByte c) EmptyString.
Proof.
  destruct c as [[] [] [] [] [] [] [] []]; intros Hc; try discriminate Hc;
    split; (done || (vm_compute; reflexivity)).
Qed.

Lemma lower_high_rune (table : UnicodeTable) (r : Z) :
  128 ≤ r → r ≠ 304 →
  unicodeToLower table r = 107 ∨ 128 ≤ unicodeToLower table r.
Proof.
  intros Hr Hne. unfold unicodeToLower.
  destruct (Z.leb_spec r 127); [lia|].
  destruct (Z.eqb_spec r 304); [done|].
  destruct (Z.eqb_spec r 8490); [by left|].
  right. by apply lowerOther_above_ascii.
Qed.


Lemma append_single (c : ascii) (x : string) :
  String c EmptyString +:+ x = String c x.
Proof. reflexivity. Qed.

Lemma Map_equalFoldLower (table : UnicodeTable) (t s : string) :
  plainLower t = true →
  Map (unicodeToLower table) s = t ↔ equalFoldLower s t = true.
Proof.
  unfold Map. revert s. induction t as [|d t IH]; intros s Ht.
  - destruct s as [|c s']; [done|].
    split; [|done]. cbn [mapRunes].
    destruct (Utf8.DecodeRuneInString (String c s')) as [r w] eqn:Hdec.
    destruct (GoStrings.isASCIIByte c) eqn:Hc.
    + pose proof (lower_ascii_byte table c Hc) as [Hpos Happ].
      unfold Utf8.DecodeRuneInString in Hdec.
      rewrite isASCIIByte_byteOf in Hc. rewrite Hc in Hdec.
      injection Hdec as <- <-.
      apply Z.leb_le in Hpos. rewrite Hpos, Happ. done.
    + destruct (decode_high c s' Hc) as [[Hd _]|(Hne & Hge & _)];
        rewrite Hdec in *.
      * injection Hd as -> ->. done.
      * simpl in Hne, Hge.
        destruct (lower_high_rune table r Hge Hne) as [->|Hhigh]; [done|].
        destruct (AppendRune_high _ Hhigh) as (c0 & rest & -> & _).
        destruct (Z.leb_spec 0 (unicodeToLower table r)); [done|lia].
  - simpl in Ht.
    apply andb_prop in Ht as [[[Hd Hup]%andb_prop Hk]%andb_prop Ht].
    apply negb_true_iff in Hup, Hk.
    destruct s as [|c s']; [done|].
    cbn [mapRunes equalFoldLower].
    destruct (Utf8.DecodeRuneInString (String c s')) as [r w] eqn:Hdec.
    destruct (GoStrings.isASCIIByte c) eqn:Hc.
    + pose proof (lower_ascii_byte table c Hc) as [Hpos Happ].
      unfold Utf8.DecodeRuneInString in Hdec.
      rewrite isASCIIByte_byteOf in Hc. rewrite Hc in Hdec.
      injection Hdec as <- <-.
      apply Z.leb_le in Hpos. rewrite Hpos, Happ, append_single. cbn [Nat.sub].
      rewrite andb_true_iff, <- (IH s' Ht), Ascii.eqb_eq.
      split; [by intros [= -> ->]|by intros [-> ->]].
    + destruct (decode_high c s' Hc) as [[Hd' [-> [s'' ->]]]|(Hne & Hge & Hnd)];
        rewrite Hdec in *.
      * injection Hd' as -> ->.
        assert (unicodeToLower table 304 = 105) as -> by reflexivity.
        assert (Utf8.AppendRune 105 = String "i"%char EmptyString) as ->
          by reflexivity.
        assert ((0 <=? 105) = true) as -> by reflexivity.
        rewrite append_single. cbn [Nat.sub mapRunes].
        rewrite !andb_true_iff, <- (IH s'' Ht), Ascii.eqb_eq.
        split; [by intros [= <- ->]|by intros [[[<- _] _] ->]].
      * simpl in Hne, Hge. split.
        -- intros Hout. exfalso.
           destruct (lower_high_rune table r Hge Hne) as [Hlow|Hhigh].
           ++ rewrite Hlow in Hout.
              assert (Utf8.AppendRune 107 = String "k"%char EmptyString) as Hk'
                by reflexivity.
              rewrite Hk' in Hout.
              assert ((0 <=? 107) = true) as Hpos by reflexivity.
              rewrite Hpos, append_single in Hout.
              injection Hout as <- _. done.
           ++ destruct (AppendRune_high _ Hhigh) as (c0 & rest & Happ & Hc0).
              rewrite Happ in Hout.
              destruct (Z.leb_spec 0 (unicodeToLower table r)); [|lia].
              change ((String c0 rest +:+ ?x)) with (String c0 (rest +:+ x))
                in Hout.
              injection Hout as -> _. congruence.
        -- intros Hfold. exfalso. apply Hnd.
           destruct s' as [|c' s'']; [done|].
           apply andb_prop in Hfold as [[[_ Hc196]%andb_prop Hc176]%andb_prop _].
           apply Ascii.eqb_eq in Hc196, Hc176. subst. split; [done|eauto].
Qed.

Lemma sameLetter_lower (c d : ascii) :
  GoStrings.isUpperByte d = false →
  GoStrings.sameLetter c d = Ascii.eqb (GoStrings.lowerByte c) d.
Proof.
  intros Hd. apply Bool.eq_iff_eq_true.
  rewrite <- (lowerByte_sameLetter c d Hd). symmetry. apply Ascii.eqb_eq.
Qed.

Lemma isUpperByte_ascii (c : ascii) :
  GoStrings.isUpperByte c = true → GoStrings.isASCIIByte c = true.
Proof.
  unfold GoStrings.isUpperByte, GoStrings.isASCIIByte.
  intros [_ Hle%N.leb_le]%andb_prop. apply N.ltb_lt. lia.
Qed.

Lemma sameLetter_high (c d : ascii) :
  GoStrings.isASCIIByte c = false → GoStrings.isASCIIByte d = true →
  GoStrings.isUpperByte d = false → GoStrings.sameLetter c d = false.
Proof.
  intros Hc Hd Hup. unfold GoStrings.sameLetter.
  destruct (Ascii.eqb_spec c d) as [->|_]; [congruence|].
  destruct (GoStrings.isUpperByte c) eqn:Hcu.
  - apply isUpperByte_ascii in Hcu. congruence.
  - by rewrite Hup.
Qed.

Lemma equalFoldASCII_lower (s t : string) :
  plainLower t = true →
  GoStrings.equalFoldASCII s t = GoStrings.isASCII s && equalFoldLower s t.
Proof.
  revert s. induction t as [|d t IH]; intros s Ht.
  - destruct s as [|c s']; [done|]. simpl. by rewrite andb_false_r.
  - simpl in Ht.
    apply andb_prop in Ht as [[[Hd Hup]%andb_prop Hk]%andb_prop Ht].
    apply negb_true_iff in Hup.
    destruct s as [|c s']; [done|].
    cbn [GoStrings.equalFoldASCII GoStrings.isASCII equalFoldLower].
    destruct (GoStrings.isASCIIByte c) eqn:Hc.
    + rewrite (sameLetter_lower c d Hup), (IH s' Ht). simpl.
      destruct (Ascii.eqb _ d), (GoStrings.isASCII s'); done.
    + by rewrite (sameLetter_high c d Hc Hd Hup).
Qed.

Lemma plainLower_no_upper (t : string) :
  plainLower t = true → GoStrings.hasUpper t = false.
Proof.
  induction t as [|d t IH]; [done|]. simpl.
  intros [[[_ Hup]%andb_prop _]%andb_prop Ht]%andb_prop.
  apply negb_true_iff in Hup. by rewrite Hup, IH.
Qed.

Lemma ToLower_equalFoldLower (table : UnicodeTable) fold (s t : string) :
  plainLower t = true →
  GoStrings.ToLower (H := unicodeRuntime table fold) s = t
  ↔ equalFoldLower s t = true.
Proof.
  intros Ht. destruct (GoStrings.isASCII s) eqn:Hs.
  - rewrite (ToLower_ASCII s Hs).
    rewrite (lowerASCII_equalFold s t (plainLower_no_upper t Ht)).
    by rewrite (equalFoldASCII_lower s t Ht), Hs.
  - unfold GoStrings.ToLower. rewrite Hs. simpl.
    by apply Map_equalFoldLower.
Qed.

(** C3. The room type of a create request is Audio exactly when the text
    sent matches "audio" regardless of case as [strings.ToLower] removes
    case: letter by letter up to the case of each ASCII letter, where the i
    may also be U+0130, the capital I with a dot above, which the Unicode
    tables lower to i.  It is Live for every other text, the empty text and
    "foo" among them; "AUDIO" gives Audio; every text gets one of the two.
    For a text of ASCII bytes that match is the one of the plain sense. *)
Theorem C3_room_type_normalization (table : UnicodeTable)
    (fold : string → string → bool) (s : string) :
  let H := unicodeRuntime table fold in
  (roomTypeOf s = RoomAudio ∨ roomTypeOf s = RoomLive) ∧
  (roomTypeOf s = RoomAudio ↔ equalFoldLower s "audio" = true) ∧
  (roomTypeOf s = RoomLive ↔ equalFoldLower s "audio" = false) ∧
  GoStrings.equalFoldASCII s "audio"
  = GoStrings.isASCII s && equalFoldLower s "audio" ∧
  roomTypeOf "AUDIO" = RoomAudio ∧
  roomTypeOf "" = RoomLive ∧
  roomTypeOf "foo" = RoomLive ∧
  roomTypeOf ("AUD" +:+ dottedCapitalI +:+ "O") = RoomAudio.
Proof.
  intros H.
  assert (roomTypeOf s = RoomAudio ↔ equalFoldLower s "audio" = true) as Hiff.
  { rewrite <- (ToLower_equalFoldLower table fold s "audio" eq_refl).
    unfold roomTypeOf.
    destruct (String.eqb_spec (GoStrings.ToLower s) "audio") as [Heq|Hne];
      split; (done || discriminate). }
  assert (roomTypeOf s = RoomAudio ∨ roomTypeOf s = RoomLive) as Htotal.
  { unfold roomTypeOf. destruct (String.eqb _ _); auto. }
  split; [done|]. split; [done|]. split.
  { destruct (equalFoldLower s "audio") eqn:Hfold.
    - split; [|done]. intros Hlive.
      rewrite (proj2 Hiff eq_refl) in Hlive. discriminate.
    - split; [done|]. intros _. destruct Htotal as [Haudio|Hlive]; [|done].
      apply Hiff in Haudio. discriminate. }
  split; [by apply equalFoldASCII_lower|].
  repeat split; vm_compute; reflexivity.
Qed.

(** C3 fails when the match is taken in the plain sense: the text "AUD",
    U+0130, "O" is stored as Audio, though it does not match "audio" letter
    by letter up to ASCII case. *)
Lemma C3_counterexample_dotted_capital_I :
  roomTypeOf (H := unicodeRuntime plainTable (λ _ _, false))
    ("AUD" +:+ dottedCapitalI +:+ "O") = RoomAudio ∧
  GoStrings.equalFoldASCII ("AUD" +:+ dottedCapitalI +:+ "O") "audio" = false.
Proof. split; vm_compute; reflexivity. Qed.

Lemma C3_room_type_normalization_witness :
  roomTypeOf (H := unicodeRuntime plainTable (λ _ _, false)) "AuDiO"
  = RoomAudio.
Proof.
  exact (proj2 (proj1 (proj2 (C3_room_type_normalization plainTable
                                (λ _ _, false) "AuDiO"))) eq_refl).
Defined.

(** ** Destroy *)

(** C2. A destroy request answers "room not found" exactly when the store
    has no room under the identifier, and then leaves the store as it is;
    otherwise it removes that entry and no other and answers with the
    acknowledgement result = ok.  Repeating the request after a success
    answers "room not found", and for an identifier never stored every
    request does. *)
Theorem C2_destroy_not_found_iff_absent `{GoRuntime} (r : HttpRequest)
    (room_id : string) (rooms : Store)
    (Hmethod : Method r = MethodPost)
    (Hbody : decodeDestroyRoomRequest (Body r)
             = Some {| Destroy_RoomID := room_id |}) :
  let out := destroyRoomHandler r rooms in
  (out.1 = Error "room not found" StatusNotFound ↔ rooms !! room_id = None) ∧
  match rooms !! room_id with
  | None =>
      out = (Error "room not found" StatusNotFound, rooms) ∧
      destroyRoomHandler r out.2 = (Error "room not found" StatusNotFound, rooms)
  | Some _ =>
      out.1 = EncodeMap [("result", "ok")] ∧
      out.2 !! room_id = None ∧
      (∀ key, key ≠ room_id → out.2 !! key = rooms !! key) ∧
      destroyRoomHandler r out.2 = (Error "room not found" StatusNotFound, out.2)
  end.
Proof.
  intros out. subst out.
  rewrite (destroyRoomHandler_decoded r _ rooms Hmethod Hbody); simpl.
  destruct (rooms !! room_id) as [room|] eqn:Hlook; simpl.
  - split; [split; discriminate|].
    split; [done|].
    split; [apply lookup_delete_eq|].
    split; [intros key Hkey; by apply lookup_delete_ne|].
    rewrite (destroyRoomHandler_decoded r _ _ Hmethod Hbody); simpl.
    by rewrite lookup_delete_eq.
  - split; [done|]. split; [done|].
    rewrite (destroyRoomHandler_decoded r _ _ Hmethod Hbody); simpl.
    by rewrite Hlook.
Qed.

(** ** Sorting *)

Lemma sink_perm (x : Room) (before : list Room) :
  sink lessCreateTime x before ≡ₚ x :: before.
Proof.
  induction before as [|y before IH]; simpl; [done|].
  destruct (lessCreateTime x y); [|done].
  rewrite IH. apply Permutation_swap.
Qed.

Lemma lessCreateTime_true (a b : Room) :
  lessCreateTime a b = true ↔ Room_CreateTime b < Room_CreateTime a.
Proof. unfold lessCreateTime. rewrite Z.gtb_ltb. apply Z.ltb_lt. Qed.

Lemma lessCreateTime_false (a b : Room) :
  lessCreateTime a b = false ↔ Room_CreateTime a ≤ Room_CreateTime b.
Proof. unfold lessCreateTime. rewrite Z.gtb_ltb. apply Z.ltb_ge. Qed.

Lemma sink_oldestFirst (x : Room) (before : list Room) :
  StronglySorted oldestFirst before →
  StronglySorted oldestFirst (sink lessCreateTime x before).
Proof.
  induction before as [|y before IH]; simpl; intros Hsorted.
  - repeat constructor.
  - apply StronglySorted_cons in Hsorted as [Hy Hsorted].
    destruct (lessCreateTime x y) eqn:Hless.
    + apply lessCreateTime_true in Hless.
      apply StronglySorted_cons. split; [|by apply IH].
      rewrite sink_perm. constructor; [|done].
      unfold oldestFirst. lia.
    + apply lessCreateTime_false in Hless.
      apply StronglySorted_cons. split; [|by apply StronglySorted_cons].
      constructor; [done|].
      eapply Forall_impl; [exact Hy|].
      unfold oldestFirst. intros z Hz. lia.
Qed.

Lemma fold_sink_perm (data acc : list Room) :
  fold_left (λ before x, sink lessCreateTime x before) data acc ≡ₚ data ++ acc.
Proof.
  revert acc. induction data as [|x data IH]; intros acc; simpl; [done|].
  rewrite IH, sink_perm. by rewrite Permutation_middle.
Qed.

Lemma fold_sink_oldestFirst (data acc : list Room) :
  StronglySorted oldestFirst acc →
  StronglySorted oldestFirst
    (fold_left (λ before x, sink lessCreateTime x before) data acc).
Proof.
  revert acc. induction data as [|x data IH]; intros acc Hacc; simpl; [done|].
  by apply IH, sink_oldestFirst.
Qed.

Lemma rev_oldestFirst (l : list Room) :
  StronglySorted oldestFirst l → StronglySorted newestFirst (rev l).
Proof.
  induction l as [|x l IH]; simpl; intros Hl; [constructor|].
  apply StronglySorted_cons in Hl as [Hx Hl].
  apply StronglySorted_app_2; [|by apply IH|repeat constructor].
  intros a b Ha ->%list_elem_of_singleton.
  rewrite list_elem_of_In, <- in_rev, <- list_elem_of_In in Ha.
  rewrite Forall_forall in Hx. specialize (Hx a Ha).
  unfold oldestFirst, newestFirst in *. lia.
Qed.

Lemma sortSlice_rooms_perm (visit : list Room) :
  sortSlice lessCreateTime visit ≡ₚ visit.
Proof.
  unfold sortSlice, insertionSort.
  rewrite <- Permutation_rev, fold_sink_perm. by rewrite app_nil_r.
Qed.

Lemma sortSlice_rooms_newestFirst (visit : list Room) :
  StronglySorted newestFirst (sortSlice lessCreateTime visit).
Proof.
  unfold sortSlice, insertionSort.
  apply rev_oldestFirst, fold_sink_oldestFirst. constructor.
Qed.

Lemma newestFirst_adjacent (l : list Room) (i : nat) (a b : Room) :
  StronglySorted newestFirst l →
  l !! i = Some a → l !! S i = Some b →
  Room_CreateTime a >= Room_CreateTime b.
Proof.
  intros Hl. revert i. induction Hl as [|x l Hl IH Hx]; intros i Ha Hb; [done|].
  destruct i as [|i]; simpl in *.
  - injection Ha as ->. rewrite Forall_forall in Hx.
    apply Hx. by eapply list_elem_of_lookup_2.
  - by eapply IH.
Qed.

(** ** List *)

Lemma collect_app (visit acc : list Room) :
  fold_left (λ list v, (list ++ [v])%list) visit acc = (acc ++ visit)%list.
Proof.
  revert acc. induction visit as [|v visit IH]; intros acc; simpl.
  - by rewrite app_nil_r.
  - by rewrite IH, <- app_assoc.
Qed.

Lemma collect_visit (visit : list Room) : collect visit = visit.
Proof. apply collect_app. Qed.

Lemma listRoomsHandler_get (r : HttpRequest) (visit : list Room) (rooms : Store) :
  Method r = MethodGet →
  listRoomsHandler r visit rooms
  = (EncodeRooms (sortSlice lessCreateTime visit), rooms).
Proof.
  intros Hm. unfold listRoomsHandler. by rewrite Hm, collect_visit.
Qed.

(** C4. The list request returns exactly the rooms of the store, whatever
    the order in which the map is visited, with the creation time of each
    returned room at least that of the next one; a store of three rooms
    with creation times t1 < t2 < t3 is returned as t3, t2, t1. *)
Theorem C4_list_sorted_by_create_time_desc (r : HttpRequest) (rooms : Store)
    (visit : list Room)
    (Hmethod : Method r = MethodGet) (Hvisit : rangeOver rooms visit) :
  ∃ out,
    listRoomsHandler r visit rooms = (EncodeRooms out, rooms) ∧
    out ≡ₚ (map_to_list rooms).*2 ∧
    (∀ i a b, out !! i = Some a → out !! S i = Some b →
              Room_CreateTime a >= Room_CreateTime b) ∧
    (∀ r1 r2 r3,
       (map_to_list rooms).*2 ≡ₚ [r1; r2; r3] →
       Room_CreateTime r1 < Room_CreateTime r2 →
       Room_CreateTime r2 < Room_CreateTime r3 →
       out = [r3; r2; r1]).
Proof.
  exists (sortSlice lessCreateTime visit).
  pose proof (sortSlice_rooms_newestFirst visit) as Hsorted.
  assert (sortSlice lessCreateTime visit ≡ₚ (map_to_list rooms).*2) as Hperm.
  { by rewrite sortSlice_rooms_perm. }
  split; [by apply listRoomsHandler_get|].
  split; [done|].
  split.
  - intros i a b. by apply newestFirst_adjacent.
  - intros r1 r2 r3 Hthree H12 H23.
    apply (StronglySorted_unique_strong newestFirst); [|done| |].
    all: unfold newestFirst.
    + intros x y Hx Hy Hxy Hyx.
      rewrite Hperm, Hthree in Hx.
      set_unfold. destruct Hx as [->|[->|[->|[]]]];
        destruct Hy as [->|[->|[->|[]]]]; (done || lia).
    + repeat constructor; lia.
    + rewrite Hperm, Hthree.
      exact (Permutation_rev [r1; r2; r3]).
Qed.

(** ** Create on the store *)

Lemma no_entries_under_key (entries : list (string * Room)) (id : string) :
  (∀ key room, (key, room) ∈ entries → key ≠ id) →
  filter (λ entry : string * Room, entry.1 = id) entries = [].
Proof.
  induction entries as [|[key other] entries IH]; intros Hkeys; [done|].
  rewrite filter_cons. destruct (decide _) as [Hkey|Hkey]; simpl in Hkey.
  - destruct (Hkeys key other); [left|done].
  - apply IH. intros k x Hin. apply (Hkeys k x). by right.
Qed.

Lemma entries_under_inserted_key (rooms : Store) (id : string) (room : Room) :
  filter (λ entry : string * Room, entry.1 = id) (map_to_list (<[id := room]> rooms))
  = [(id, room)].
Proof.
  apply Permutation_singleton_r.
  rewrite <- insert_delete_eq.
  rewrite map_to_list_insert by apply lookup_delete_eq.
  rewrite filter_cons_True by done.
  rewrite no_entries_under_key; [done|].
  intros key other Hin%elem_of_map_to_list ->.
  by rewrite lookup_delete_eq in Hin.
Qed.

(** C5. Two create requests for the same user identifier get the same room
    identifier; once both are applied the store holds, under that
    identifier, one entry only, the room of the request applied last, with
    that request's creation time, room type and RTC type; the second insert
    adds no entry and touches no other identifier. *)
Theorem C5_create_is_upsert `{GoRuntime} (userid typeA typeB : string)
    (uA uB nowA nowB : Z) (rooms : Store) :
  let first := createRoomHandler (postCreate userid typeA) uA nowA rooms in
  let second := createRoomHandler (postCreate userid typeB) uB nowB first.2 in
  ∃ roomA roomB,
    first.1 = EncodeRoom roomA ∧
    second.1 = EncodeRoom roomB ∧
    Room_RoomID roomA = generateRoomID userid ∧
    Room_RoomID roomB = generateRoomID userid ∧
    first.2 !! generateRoomID userid = Some roomA ∧
    second.2 !! generateRoomID userid = Some roomB ∧
    Room_CreateTime roomB = nowB ∧
    Room_RoomType roomB = roomTypeOf typeB ∧
    Room_RTCType roomB = chooseRTC uB ∧
    filter (λ entry : string * Room, entry.1 = generateRoomID userid)
      (map_to_list second.2) = [(generateRoomID userid, roomB)] ∧
    size second.2 = size first.2 ∧
    (∀ key, key ≠ generateRoomID userid → second.2 !! key = rooms !! key).
Proof.
  intros first second. subst first second.
  rewrite (createRoomHandler_decoded (postCreate userid typeA) _ uA nowA rooms
             eq_refl (decode_postCreate userid typeA)).
  cbn [fst snd].
  rewrite (createRoomHandler_decoded (postCreate userid typeB) _ uB nowB _
             eq_refl (decode_postCreate userid typeB)).
  cbn [fst snd Create_UserID].
  eexists _, _.
  split; [done|]. split; [done|]. split; [done|]. split; [done|].
  split; [apply lookup_insert_eq|].
  split; [apply lookup_insert_eq|].
  split; [done|]. split; [done|]. split; [done|].
  split; [apply entries_under_inserted_key|].
  split.
  - apply map_size_insert_Some. rewrite lookup_insert_eq. eauto.
  - intros key Hkey. by rewrite !lookup_insert_ne.
Qed.

(** C6. After a create request, a list request with nothing in between
    returns a list holding an entry whose room identifier, owner, creation
    time, room type and RTC type are those of the room the create request
    returned. *)
Theorem C6_create_then_list `{GoRuntime} (rc rl : HttpRequest)
    (req : CreateRoomRequest) (u now : Z) (rooms : Store) (visit : list Room)
    (Hpost : Method rc = MethodPost)
    (Hbody : decodeCreateRoomRequest (Body rc) = Some req)
    (Hget : Method rl = MethodGet)
    (Hvisit : rangeOver (createRoomHandler rc u now rooms).2 visit) :
  ∃ room out,
    (createRoomHandler rc u now rooms).1 = EncodeRoom room ∧
    (listRoomsHandler rl visit (createRoomHandler rc u now rooms).2).1
      = EncodeRooms out ∧
    ∃ entry, entry ∈ out ∧
      Room_RoomID entry = Room_RoomID room ∧
      Room_OwnerUserID entry = Room_OwnerUserID room ∧
      Room_CreateTime entry = Room_CreateTime room ∧
      Room_RoomType entry = Room_RoomType room ∧
      Room_RTCType entry = Room_RTCType room.
Proof.
  rewrite (createRoomHandler_decoded rc req u now rooms Hpost Hbody) in *.
  cbn [fst snd] in *.
  rewrite (listRoomsHandler_get rl visit _ Hget). cbn [fst].
  eexists _, _. split; [done|]. split; [done|].
  exists (newRoom req u now). split; [|done].
  rewrite sortSlice_rooms_perm. unfold rangeOver in Hvisit. rewrite Hvisit.
  apply list_elem_of_fmap.
  exists (generateRoomID (Create_UserID req), newRoom req u now).
  split; [done|].
  apply elem_of_map_to_list, lookup_insert_eq.
Qed.

(** ** The invariant of the store *)

Section Invariant.
Context `{GoRuntime}.

Lemma storeInv_empty : storeInv emptyStore.
Proof.
  intros key room Hlook. unfold emptyStore in Hlook.
  by rewrite lookup_empty in Hlook.
Qed.

Lemma storeInv_insert_newRoom req u now (rooms : Store) :
  storeInv rooms →
  storeInv (<[generateRoomID (Create_UserID req) := newRoom req u now]> rooms).
Proof.
  intros Hinv key room Hlook.
  destruct (decide (generateRoomID (Create_UserID req) = key)) as [<-|Hne].
  - rewrite lookup_insert_eq in Hlook. by injection Hlook as <-.
  - rewrite lookup_insert_ne in Hlook by done. by apply Hinv.
Qed.

Lemma storeInv_delete key (rooms : Store) :
  storeInv rooms → storeInv (delete key rooms).
Proof.
  intros Hinv k room Hlook.
  apply lookup_delete_Some in Hlook as [_ Hlook]. by apply Hinv.
Qed.

Lemma step_preserves_storeInv (rooms rooms' : Store) call resp :
  storeInv rooms → step rooms call resp rooms' → storeInv rooms'.
Proof.
  intros Hinv Hstep.
  destruct Hstep as [rooms r u now Hu|rooms r|rooms r visit Hvisit].
  - destruct (createRoomHandler_cases r u now rooms)
      as [(msg & code & ->)|(req & ->)]; simpl; [done|].
    by apply storeInv_insert_newRoom.
  - destruct (destroyRoomHandler_cases r rooms) as [->|[key ->]]; [done|].
    by apply storeInv_delete.
  - unfold listRoomsHandler. by destruct (negb _).
Qed.

Lemma reachable_storeInv (rooms : Store) : reachable rooms → storeInv rooms.
Proof.
  induction 1 as [|rooms call resp rooms' _ IH Hstep].
  - apply storeInv_empty.
  - by eapply step_preserves_storeInv.
Qed.

End Invariant.

(** C8. The empty store satisfies the invariant that every entry is filed
    under its room's identifier, which is "rm_" followed by the room's
    owner; every create, destroy and list request preserves it; so it holds
    in every store the server reaches from the empty one. *)
Theorem C8_store_invariant `{GoRuntime} :
  storeInv emptyStore ∧
  (∀ (rooms rooms' : Store) call resp,
     storeInv rooms → step rooms call resp rooms' → storeInv rooms') ∧
  (∀ rooms : Store, reachable rooms →
     ∀ key room, rooms !! key = Some room →
       key = Room_RoomID room ∧
       Room_RoomID room = "rm_" +:+ Room_OwnerUserID room).
Proof.
  split; [apply storeInv_empty|].
  split; [apply @step_preserves_storeInv|].
  intros rooms Hreach. by apply reachable_storeInv.
Qed.

(** ** Requests that leave fields out *)

Lemma decodeMembers_omitted `{GoRuntime} tags tag members fields ok :
  Json.omits tags tag members →
  (Json.decodeMembers tags members fields ok).1 !! tag = fields !! tag.
Proof.
  revert fields ok.
  induction members as [|[key v] rest IH]; intros fields ok Homit; [done|].
  assert (Json.omits tags tag rest) as Hrest.
  { intros k x Hin. apply (Homit k x). by right. }
  assert (Json.findField tags key ≠ Some tag) as Hkey.
  { apply (Homit key v). by left. }
  simpl. destruct (Json.findField tags key) as [t|]; [|by apply IH].
  destruct v; rewrite IH by done; try done.
  apply lookup_insert_ne. congruence.
Qed.

Lemma decodeCreate_object `{GoRuntime} members req :
  decodeCreateRoomRequest (Some (Json.JObject members)) = Some req →
  let fields :=
    (Json.decodeMembers ["userid"; "room_type"] members ∅ true).1 in
  req = {| Create_UserID := Json.field fields "userid";
           Create_RoomType := Json.field fields "room_type" |}.
Proof.
  unfold decodeCreateRoomRequest, Json.Decode.
  destruct (Json.decodeMembers _ members ∅ true) as [fields ok]; simpl.
  destruct ok; simpl; [|done]. by intros [= <-].
Qed.

(** C10. A create request whose body decodes is not rejected: it returns
    and stores a room.  When the body has no user identifier the room has
    identifier "rm_" and an empty owner; when it has no room type the room
    is Live; the body {} has neither, decodes, and stores that room. *)
Theorem C10_missing_fields_default `{GoRuntime}
    (members : list (string * Json.value)) (req : CreateRoomRequest)
    (u now : Z) (rooms : Store)
    (Hdecodes : decodeCreateRoomRequest (Some (Json.JObject members)) = Some req) :
  (∃ room,
     createRoomHandler
       {| Method := MethodPost; Body := Some (Json.JObject members) |}
       u now rooms
     = (EncodeRoom room, <[Room_RoomID room := room]> rooms) ∧
     (Json.omits ["userid"; "room_type"] "userid" members →
        Room_RoomID room = "rm_" ∧ Room_OwnerUserID room = "") ∧
     (Json.omits ["userid"; "room_type"] "room_type" members →
        Room_RoomType room = RoomLive)) ∧
  createRoomHandler {| Method := MethodPost; Body := Some (Json.JObject []) |}
    u now rooms
  = (let room := {| Room_RoomID := "rm_"; Room_OwnerUserID := "";
                    Room_CreateTime := now; Room_RoomType := RoomLive;
                    Room_RTCType := chooseRTC u |} in
     (EncodeRoom room, <["rm_" := room]> rooms)).
Proof.
  split; [|reflexivity].
  exists (newRoom req u now).
  split; [by apply createRoomHandler_decoded|].
  apply decodeCreate_object in Hdecodes. simpl in Hdecodes.
  split.
  - intros Homit. subst req. unfold newRoom, Json.field; simpl.
    rewrite (decodeMembers_omitted _ _ _ _ _ Homit), lookup_empty. by simpl.
  - intros Homit. subst req. unfold newRoom, Json.field; simpl.
    rewrite (decodeMembers_omitted _ _ _ _ _ Homit), lookup_empty. by simpl.
Qed.

(** ** The scenario of the specification

    User "5" creates a Live room; the list holds that room only; destroying
    "rm_5" is acknowledged and empties the store; the list is then empty and
    destroying "rm_5" again is answered with "room not found". *)

Lemma rangeOver_singleton (id : string) (room : Room) (visit : list Room) :
  rangeOver (<[id := room]> emptyStore) visit → visit = [room].
Proof.
  unfold rangeOver, emptyStore. rewrite insert_empty, map_to_list_singleton.
  apply Permutation_singleton_r.
Qed.

Lemma rangeOver_empty (visit : list Room) :
  rangeOver emptyStore visit → visit = [].
Proof.
  unfold rangeOver, emptyStore. rewrite map_to_list_empty.
  apply Permutation_nil_r.
Qed.

Example scenario_create_list_destroy `{GoRuntime} (u now : Z) :
  let room := {| Room_RoomID := "rm_5"; Room_OwnerUserID := "5";
                 Room_CreateTime := now; Room_RoomType := RoomLive;
                 Room_RTCType := chooseRTC u |} in
  let created := createRoomHandler (postCreate "5" "Live") u now emptyStore in
  let destroyed := destroyRoomHandler (postDestroy "rm_5") created.2 in
  created.1 = EncodeRoom room ∧
  (∀ visit, rangeOver created.2 visit →
     (listRoomsHandler getList visit created.2).1 = EncodeRooms [room]) ∧
  destroyed = (EncodeMap [("result", "ok")], emptyStore) ∧
  (∀ visit, rangeOver destroyed.2 visit →
     (listRoomsHandler getList visit destroyed.2).1 = EncodeRooms []) ∧
  (destroyRoomHandler (postDestroy "rm_5") destroyed.2).1
  = Error "room not found" StatusNotFound.
Proof.
  intros room created destroyed.
  assert (created = (EncodeRoom room, <["rm_5" := room]> emptyStore)) as Hcreated.
  { subst created.
    by rewrite (createRoomHandler_decoded (postCreate "5" "Live") _ u now _
                  eq_refl (decode_postCreate "5" "Live")). }
  assert (destroyed = (EncodeMap [("result", "ok")], emptyStore)) as Hdestroyed.
  { subst destroyed. rewrite Hcreated. cbn [snd].
    rewrite (destroyRoomHandler_decoded (postDestroy "rm_5") _ _
               eq_refl (decode_postDestroy "rm_5")).
    cbn [Destroy_RoomID]. rewrite lookup_insert_eq, delete_insert_eq.
    unfold emptyStore. by rewrite delete_empty. }
  rewrite Hdestroyed, Hcreated. cbn [fst snd].
  split; [done|].
  split; [by intros visit ->%rangeOver_singleton|].
  split; [done|].
  split; [by intros visit ->%rangeOver_empty|].
  by rewrite (destroyRoomHandler_decoded (postDestroy "rm_5") _ _
                eq_refl (decode_postDestroy "rm_5")).
Qed.

(** ** The theorems at concrete requests *)

Lemma C1_chooseRTC_split_witness :
  isDraw 7 ∧ chooseRTC 7 = RTC_AGORA.
Proof.
  assert (isDraw 7) as Hu by (unfold isDraw; lia).
  split; [exact Hu|].
  destruct (proj1 (@C1_chooseRTC_split asciiRuntime 7 Hu)) as [[Hr _]|[_ He]];
    [lia|exact He].
Defined.

Lemma C9_default_arm_unreachable_witness :
  isDraw 9 ∧ chooseRTC_arm 9 ≠ ArmDefault.
Proof.
  assert (isDraw 9) as Hu by (unfold isDraw; lia).
  split; [exact Hu|exact (proj1 (C9_default_arm_unreachable 9 Hu))].
Defined.

Lemma C2_destroy_not_found_iff_absent_witness :
  (destroyRoomHandler (H := asciiRuntime) (postDestroy "rm_5")
     (createRoomHandler (H := asciiRuntime) (postCreate "5" "Live") 3 1700000000 ∅).2).1
  = EncodeMap [("result", "ok")].
Proof.
  pose proof (C2_destroy_not_found_iff_absent (H := asciiRuntime)
                (postDestroy "rm_5") "rm_5"
                (createRoomHandler (H := asciiRuntime)
                   (postCreate "5" "Live") 3 1700000000 ∅).2
                eq_refl eq_refl) as [_ Hcase].
  change ((createRoomHandler (H := asciiRuntime)
             (postCreate "5" "Live") 3 1700000000 ∅).2 !! "rm_5")
    with (Some (newRoom (H := asciiRuntime)
                  {| Create_UserID := "5"; Create_RoomType := "Live" |}
                  3 1700000000)) in Hcase.
  exact (proj1 Hcase).
Defined.

Lemma C4_list_sorted_by_create_time_desc_witness :
  rangeOver threeRooms (map_to_list threeRooms).*2 ∧
  ∃ out,
    listRoomsHandler getList (map_to_list threeRooms).*2 threeRooms
    = (EncodeRooms out, threeRooms) ∧
    Room_RoomID <$> out = ["rm_3"; "rm_2"; "rm_1"].
Proof.
  assert (rangeOver threeRooms (map_to_list threeRooms).*2) as Hvisit
    by apply Permutation_refl.
  split; [exact Hvisit|].
  destruct (C4_list_sorted_by_create_time_desc getList threeRooms _
              eq_refl Hvisit) as (out & Hout & _ & _ & Hthree).
  exists out. split; [exact Hout|].
  pose (mk := λ id owner t rt rtc,
          {| Room_RoomID := id; Room_OwnerUserID := owner;
             Room_CreateTime := t; Room_RoomType := rt;
             Room_RTCType := rtc |}).
  rewrite (Hthree (mk "rm_1" "1" 100 RoomLive RTC_TRTC)
                  (mk "rm_2" "2" 200 RoomAudio RTC_AGORA)
                  (mk "rm_3" "3" 300 RoomLive RTC_AGORA)).
  - reflexivity.
  - exact (Permutation_cons_append
             [mk "rm_1" "1" 100 RoomLive RTC_TRTC;
              mk "rm_2" "2" 200 RoomAudio RTC_AGORA]
             (mk "rm_3" "3" 300 RoomLive RTC_AGORA)).
  - simpl; lia.
  - simpl; lia.
Defined.

Lemma C6_create_then_list_witness :
  let created :=
    createRoomHandler (H := asciiRuntime) (postCreate "5" "Live") 3 1700000000
      emptyStore in
  ∃ room out,
    created.1 = EncodeRoom room ∧
    (listRoomsHandler getList (map_to_list created.2).*2 created.2).1
      = EncodeRooms out ∧
    ∃ entry, entry ∈ out ∧ Room_RoomID entry = Room_RoomID room.
Proof.
  intros created.
  destruct (C6_create_then_list (H := asciiRuntime)
              (postCreate "5" "Live") getList
              {| Create_UserID := "5"; Create_RoomType := "Live" |}
              3 1700000000 emptyStore (map_to_list created.2).*2
              eq_refl eq_refl eq_refl (Permutation_refl _))
    as (room & out & Hroom & Hout & entry & Hin & Hid & _).
  exists room, out. split; [exact Hroom|]. split; [exact Hout|].
  exists entry. split; [exact Hin|exact Hid].
Defined.

Lemma C8_store_invariant_witness :
  reachable (H := asciiRuntime) threeRooms ∧
  ∀ key room, threeRooms !! key = Some room →
    key = Room_RoomID room ∧
    Room_RoomID room = "rm_" +:+ Room_OwnerUserID room.
Proof.
  assert (∀ u, (u = 0 ∨ u = 6 ∨ u = 9) → isDraw u) as Hdraw
    by (unfold isDraw; lia).
  assert (reachable (H := asciiRuntime) threeRooms) as Hreach.
  { unfold threeRooms.
    eapply reachable_step;
      [eapply reachable_step;
         [eapply reachable_step; [apply reachable_init|]|]|];
      apply (step_create (H := asciiRuntime)); apply Hdraw; auto. }
  split; [exact Hreach|].
  exact (proj2 (proj2 (C8_store_invariant (H := asciiRuntime)))
           threeRooms Hreach).
Defined.

Lemma C10_missing_fields_default_witness :
  ∃ room,
    createRoomHandler (H := asciiRuntime)
      {| Method := MethodPost;
         Body := Some (Json.JObject [("room_type", Json.JString "AUDIO")]) |}
      4 1700000000 emptyStore
    = (EncodeRoom room, <[Room_RoomID room := room]> emptyStore) ∧
    Room_RoomID room = "rm_" ∧ Room_OwnerUserID room = "".
Proof.
  destruct (C10_missing_fields_default (H := asciiRuntime)
              [("room_type", Json.JString "AUDIO")]
              {| Create_UserID := ""; Create_RoomType := "AUDIO" |}
              4 1700000000 emptyStore eq_refl)
    as [(room & Hout & Huser & _) _].
  exists room. split; [exact Hout|].
  apply Huser.
  intros key v Hin.
  apply list_elem_of_singleton in Hin. injection Hin as -> ->.
  discriminate.
Defined.

(** * Further properties of the handlers and of the routing *)

(** ** The outcomes of a request *)

Section Outcomes.
Context `{GoRuntime}.

Lemma createRoomHandler_outcome r u now (rooms : Store) :
  (Method r ≠ MethodPost ∧
   createRoomHandler r u now rooms
   = (Error "method not allowed" StatusMethodNotAllowed, rooms)) ∨
  (Method r = MethodPost ∧ decodeCreateRoomRequest (Body r) = None ∧
   createRoomHandler r u now rooms
   = (Error "invalid request" StatusBadRequest, rooms)) ∨
  (Method r = MethodPost ∧ ∃ req,
     decodeCreateRoomRequest (Body r) = Some req ∧
     createRoomHandler r u now rooms
     = (EncodeRoom (newRoom req u now),
        <[generateRoomID (Create_UserID req) := newRoom req u now]> rooms)).
Proof.
  unfold createRoomHandler.
  destruct (String.eqb_spec (Method r) MethodPost) as [Hm|Hm]; simpl;
    [|by left].
  right. destruct (decodeCreateRoomRequest (Body r)) as [req|];
    [right; eauto|left; eauto].
Qed.

Lemma destroyRoomHandler_outcome r (rooms : Store) :
  (Method r ≠ MethodPost ∧
   destroyRoomHandler r rooms
   = (Error "method not allowed" StatusMethodNotAllowed, rooms)) ∨
  (Method r = MethodPost ∧ decodeDestroyRoomRequest (Body r) = None ∧
   destroyRoomHandler r rooms
   = (Error "invalid request" StatusBadRequest, rooms)) ∨
  (Method r = MethodPost ∧ ∃ req,
     decodeDestroyRoomRequest (Body r) = Some req ∧
     rooms !! Destroy_RoomID req = None ∧
     destroyRoomHandler r rooms
     = (Error "room not found" StatusNotFound, rooms)) ∨
  (Method r = MethodPost ∧ ∃ req room,
     decodeDestroyRoomRequest (Body r) = Some req ∧
     rooms !! Destroy_RoomID req = Some room ∧
     destroyRoomHandler r rooms
     = (EncodeMap [("result", "ok")], delete (Destroy_RoomID req) rooms)).
Proof.
  unfold destroyRoomHandler.
  destruct (String.eqb_spec (Method r) MethodPost) as [Hm|Hm]; simpl;
    [|by left].
  right. destruct (decodeDestroyRoomRequest (Body r)) as [req|];
    [right|left; eauto].
  destruct (rooms !! Destroy_RoomID req) as [room|] eqn:Hlook;
    [right; eauto 10|left; eauto 10].
Qed.

Lemma listRoomsHandler_outcome r visit (rooms : Store) :
  (Method r ≠ MethodGet ∧
   listRoomsHandler r visit rooms
   = (Error "method not allowed" StatusMethodNotAllowed, rooms)) ∨
  (Method r = MethodGet ∧
   listRoomsHandler r visit rooms
   = (EncodeRooms (sortSlice lessCreateTime visit), rooms)).
Proof.
  unfold listRoomsHandler.
  destruct (String.eqb_spec (Method r) MethodGet) as [Hm|Hm]; simpl;
    [right|by left].
  by rewrite collect_visit.
Qed.

Lemma serve_routes unmatched path r u now visit (rooms : Store) :
  (path = "/room/create" ∧
   serve unmatched path r u now visit rooms = createRoomHandler r u now rooms) ∨
  (path = "/room/destroy" ∧
   serve unmatched path r u now visit rooms = destroyRoomHandler r rooms) ∨
  (path = "/room/list" ∧
   serve unmatched path r u now visit rooms = listRoomsHandler r visit rooms) ∨
  (routeMethod path = None ∧
   serve unmatched path r u now visit rooms = (unmatched path, rooms)).
Proof.
  unfold serve, routeMethod.
  destruct (String.eqb_spec path "/room/create") as [->|_]; [by left|].
  destruct (String.eqb_spec path "/room/destroy") as [->|_]; [by right; left|].
  destruct (String.eqb_spec path "/room/list") as [->|_];
    [by right; right; left|by right; right; right].
Qed.

Lemma insert_newRoom_changes req u now (rooms : Store) :
  rooms !! generateRoomID (Create_UserID req) ≠ Some (newRoom req u now) →
  <[generateRoomID (Create_UserID req) := newRoom req u now]> rooms ≠ rooms.
Proof.
  intros Hne Heq. apply Hne. rewrite <- Heq. apply lookup_insert_eq.
Qed.

End Outcomes.

(** X1. A request that is answered with an error, whatever the path, the
    method and the body, leaves the store exactly as it was: no handler
    writes to the map before it fails. *)
Theorem X1_error_leaves_store `{GoRuntime} unmatched path r u now visit
    (rooms : Store) msg code
    (Herror : (serve unmatched path r u now visit rooms).1 = Error msg code) :
  (serve unmatched path r u now visit rooms).2 = rooms.
Proof.
  destruct (serve_routes unmatched path r u now visit rooms)
    as [[_ Hs]|[[_ Hs]|[[_ Hs]|[_ Hs]]]]; rewrite Hs in *.
  - destruct (createRoomHandler_outcome r u now rooms)
      as [[_ Ho]|[(_ & _ & Ho)|(_ & req & _ & Ho)]]; rewrite Ho in *; done.
  - destruct (destroyRoomHandler_outcome r rooms)
      as [[_ Ho]|[(_ & _ & Ho)|[(_ & req & _ & _ & Ho)
                               |(_ & req & room & _ & _ & Ho)]]];
      rewrite Ho in *; done.
  - destruct (listRoomsHandler_outcome r visit rooms) as [[_ Ho]|[_ Ho]];
      by rewrite Ho.
  - done.
Qed.

Lemma X1_error_leaves_store_witness :
  (serve (H := asciiRuntime) (λ _, Error "404 page not found" StatusNotFound)
     "/room/destroy" (postDestroy "rm_9") 0 0 (map_to_list threeRooms).*2
     threeRooms).2 = threeRooms.
Proof.
  exact (X1_error_leaves_store (H := asciiRuntime)
           (λ _, Error "404 page not found" StatusNotFound)
           "/room/destroy" (postDestroy "rm_9") 0 0
           (map_to_list threeRooms).*2 threeRooms
           "room not found" StatusNotFound eq_refl).
Defined.

(** X2. The store changes only through a POST request to /room/create or
    /room/destroy that is answered with a room or with the acknowledgement;
    a GET request, and a request to any other path, never changes it. *)
Theorem X2_only_post_changes_store `{GoRuntime} unmatched path r u now visit
    (rooms : Store)
    (Hchanged : (serve unmatched path r u now visit rooms).2 ≠ rooms) :
  Method r = MethodPost ∧
  ((path = "/room/create" ∧
    ∃ room, (serve unmatched path r u now visit rooms).1 = EncodeRoom room) ∨
   (path = "/room/destroy" ∧
    (serve unmatched path r u now visit rooms).1
    = EncodeMap [("result", "ok")])).
Proof.
  destruct (serve_routes unmatched path r u now visit rooms)
    as [[Hp Hs]|[[Hp Hs]|[[Hp Hs]|[Hp Hs]]]]; rewrite Hs in *.
  - destruct (createRoomHandler_outcome r u now rooms)
      as [[_ Ho]|[(_ & _ & Ho)|(Hm & req & _ & Ho)]]; rewrite Ho in *;
      try done.
    split; [done|]. left. eauto.
  - destruct (destroyRoomHandler_outcome r rooms)
      as [[_ Ho]|[(_ & _ & Ho)|[(_ & req & _ & _ & Ho)
                               |(Hm & req & room & _ & _ & Ho)]]];
      rewrite Ho in *; try done.
    split; [done|]. by right.
  - destruct (listRoomsHandler_outcome r visit rooms) as [[_ Ho]|[_ Ho]];
      by rewrite Ho in Hchanged.
  - done.
Qed.

Lemma X2_only_post_changes_store_witness :
  ∃ room,
    (serve (H := asciiRuntime) (λ _, Error "404 page not found" StatusNotFound)
       "/room/create" (postCreate "5" "Live") 3 1700000000 [] emptyStore).1
    = EncodeRoom room.
Proof.
  destruct (X2_only_post_changes_store (H := asciiRuntime)
              (λ _, Error "404 page not found" StatusNotFound)
              "/room/create" (postCreate "5" "Live") 3 1700000000 []
              emptyStore) as [_ [[_ Hroom]|[Hpath _]]].
  - apply (insert_newRoom_changes (H := asciiRuntime)
             {| Create_UserID := "5"; Create_RoomType := "Live" |}).
    discriminate.
  - exact Hroom.
  - discriminate Hpath.
Defined.

(** X3. Each registered path lets one method through: the answer is
    "method not allowed" (405) exactly when the request's method is not the
    path's, POST for /room/create and /room/destroy and GET for /room/list,
    whatever the body holds. *)
Theorem X3_method_gate `{GoRuntime} unmatched path m r u now visit
    (rooms : Store)
    (Hroute : routeMethod path = Some m) :
  (serve unmatched path r u now visit rooms).1
  = Error "method not allowed" StatusMethodNotAllowed
  ↔ Method r ≠ m.
Proof.
  destruct (serve_routes unmatched path r u now visit rooms)
    as [[-> Hs]|[[-> Hs]|[[-> Hs]|[Hp Hs]]]]; rewrite Hs;
    [| | |congruence]; injection Hroute as <-.
  - destruct (createRoomHandler_outcome r u now rooms)
      as [[Hm Ho]|[(Hm & _ & Ho)|(Hm & req & _ & Ho)]]; rewrite Ho;
      simpl; split; (done || discriminate).
  - destruct (destroyRoomHandler_outcome r rooms)
      as [[Hm Ho]|[(Hm & _ & Ho)|[(Hm & req & _ & _ & Ho)
                                 |(Hm & req & room & _ & _ & Ho)]]];
      rewrite Ho; simpl; split; (done || discriminate).
  - destruct (listRoomsHandler_outcome r visit rooms)
      as [[Hm Ho]|[Hm Ho]]; rewrite Ho; simpl; split; (done || discriminate).
Qed.

Lemma X3_method_gate_witness :
  (serve (H := asciiRuntime) (λ _, Error "404 page not found" StatusNotFound)
     "/room/list" (postCreate "5" "Live") 0 0 [] emptyStore).1
  = Error "method not allowed" StatusMethodNotAllowed.
Proof.
  apply (X3_method_gate (H := asciiRuntime)
           (λ _, Error "404 page not found" StatusNotFound)
           "/room/list" MethodGet (postCreate "5" "Live") 0 0 [] emptyStore
           eq_refl).
  discriminate.
Defined.

(** X4. Whatever path a request is routed by, it takes a store the server
    can be in to a store the server can be in; so the invariant of the store
    holds after every request that [main] serves. *)
Theorem X4_serve_keeps_reachable `{GoRuntime} unmatched path r u now visit
    (rooms : Store)
    (Hreach : reachable rooms) (Hu : isDraw u)
    (Hvisit : rangeOver rooms visit) :
  reachable (serve unmatched path r u now visit rooms).2 ∧
  storeInv (serve unmatched path r u now visit rooms).2.
Proof.
  assert (reachable (serve unmatched path r u now visit rooms).2) as Hafter.
  { destruct (serve_routes unmatched path r u now visit rooms)
      as [[_ Hs]|[[_ Hs]|[[_ Hs]|[_ Hs]]]]; rewrite Hs.
    - eapply reachable_step; [exact Hreach|]. by apply step_create.
    - eapply reachable_step; [exact Hreach|]. apply step_destroy.
    - eapply reachable_step; [exact Hreach|]. by apply step_list.
    - done. }
  split; [done|by apply reachable_storeInv].
Qed.

Lemma X4_serve_keeps_reachable_witness :
  storeInv
    (serve (H := asciiRuntime) (λ _, Error "404 page not found" StatusNotFound)
       "/room/create" (postCreate "5" "audio") 7 1700000000 [] emptyStore).2.
Proof.
  apply (X4_serve_keeps_reachable (H := asciiRuntime)
           (λ _, Error "404 page not found" StatusNotFound)
           "/room/create" (postCreate "5" "audio") 7 1700000000 [] emptyStore).
  - apply reachable_init.
  - unfold isDraw. lia.
  - apply Permutation_refl.
Defined.

(** ** How the handlers move the store *)

(** X5. A create request, whatever it holds, never removes a room and adds
    at most one: every identifier in use stays in use and the number of
    rooms stays or grows by one. *)
Theorem X5_create_adds_at_most_one `{GoRuntime} r u now (rooms : Store) :
  (∀ key, is_Some (rooms !! key) →
          is_Some ((createRoomHandler r u now rooms).2 !! key)) ∧
  (size rooms ≤ size (createRoomHandler r u now rooms).2)%nat ∧
  (size (createRoomHandler r u now rooms).2 ≤ S (size rooms))%nat.
Proof.
  destruct (createRoomHandler_cases r u now rooms)
    as [(msg & code & ->)|(req & ->)]; simpl.
  - split; [done|]. split; lia.
  - split.
    + intros key Hkey. apply lookup_insert_is_Some'. by right.
    + rewrite map_size_insert.
      destruct (rooms !! generateRoomID (Create_UserID req)); simpl; lia.
Qed.

(** X6. A destroy request never adds or alters a room.  It is acknowledged
    exactly when the store ends up with one room fewer, and whenever it is
    not acknowledged the store is unchanged. *)
Theorem X6_destroy_removes_one_or_nothing `{GoRuntime} r (rooms : Store) :
  (destroyRoomHandler r rooms).2 ⊆ rooms ∧
  ((destroyRoomHandler r rooms).1 = EncodeMap [("result", "ok")]
   ↔ S (size (destroyRoomHandler r rooms).2) = size rooms) ∧
  ((destroyRoomHandler r rooms).1 = EncodeMap [("result", "ok")]
   ∨ (destroyRoomHandler r rooms).2 = rooms).
Proof.
  destruct (destroyRoomHandler_outcome r rooms)
    as [[_ Ho]|[(_ & _ & Ho)|[(_ & req & _ & _ & Ho)
                             |(_ & req & room & _ & Hlook & Ho)]]];
    rewrite Ho; simpl.
  1-3: split; [done|]; split; [split; [discriminate|lia]|by right].
  split; [apply delete_subseteq|]. split; [|by left].
  split; [intros _|done].
  rewrite map_size_delete, Hlook.
  assert (size rooms ≠ 0%nat) as Hsize.
  { apply map_size_non_empty_iff. intros ->. by rewrite lookup_empty in Hlook. }
  lia.
Qed.

(** X7. Destroying the room that a create request has just stored is always
    acknowledged and leaves the store without that identifier; when the
    identifier was free before the create, the store is back to what it
    was. *)
Theorem X7_create_then_destroy `{GoRuntime} rc rd req u now (rooms : Store)
    (Hpost : Method rc = MethodPost)
    (Hbody : decodeCreateRoomRequest (Body rc) = Some req)
    (Hpost' : Method rd = MethodPost)
    (Hbody' : decodeDestroyRoomRequest (Body rd)
              = Some {| Destroy_RoomID := generateRoomID (Create_UserID req) |}) :
  destroyRoomHandler rd (createRoomHandler rc u now rooms).2
  = (EncodeMap [("result", "ok")],
     delete (generateRoomID (Create_UserID req)) rooms) ∧
  (rooms !! generateRoomID (Create_UserID req) = None →
   (destroyRoomHandler rd (createRoomHandler rc u now rooms).2).2 = rooms).
Proof.
  rewrite (createRoomHandler_decoded rc req u now rooms Hpost Hbody).
  cbn [snd].
  rewrite (destroyRoomHandler_decoded rd _ _ Hpost' Hbody').
  cbn [Destroy_RoomID]. rewrite lookup_insert_eq, delete_insert_eq.
  split; [done|]. intros Hfree. by apply delete_id.
Qed.

Lemma X7_create_then_destroy_witness :
  destroyRoomHandler (H := asciiRuntime) (postDestroy "rm_4")
    (createRoomHandler (H := asciiRuntime) (postCreate "4" "Audio") 8 400
       threeRooms).2
  = (EncodeMap [("result", "ok")], delete "rm_4" threeRooms).
Proof.
  exact (proj1 (X7_create_then_destroy (H := asciiRuntime)
                  (postCreate "4" "Audio") (postDestroy "rm_4")
                  {| Create_UserID := "4"; Create_RoomType := "Audio" |}
                  8 400 threeRooms eq_refl eq_refl eq_refl eq_refl)).
Defined.

(** X8. The room a create request returns does not depend on the store, and
    create requests of different users do not interfere: applied in either
    order they leave the same store, which holds both rooms. *)
Theorem X8_creates_of_different_users_commute `{GoRuntime} rA rB reqA reqB
    uA uB nowA nowB (rooms : Store)
    (HpostA : Method rA = MethodPost)
    (HbodyA : decodeCreateRoomRequest (Body rA) = Some reqA)
    (HpostB : Method rB = MethodPost)
    (HbodyB : decodeCreateRoomRequest (Body rB) = Some reqB)
    (Hdiff : Create_UserID reqA ≠ Create_UserID reqB) :
  let afterA := (createRoomHandler rA uA nowA rooms).2 in
  let afterB := (createRoomHandler rB uB nowB rooms).2 in
  (∀ rooms' : Store, (createRoomHandler rA uA nowA rooms').1
                     = EncodeRoom (newRoom reqA uA nowA)) ∧
  (createRoomHandler rB uB nowB afterA).2
  = (createRoomHandler rA uA nowA afterB).2 ∧
  (createRoomHandler rB uB nowB afterA).2 !! generateRoomID (Create_UserID reqA)
  = Some (newRoom reqA uA nowA) ∧
  (createRoomHandler rB uB nowB afterA).2 !! generateRoomID (Create_UserID reqB)
  = Some (newRoom reqB uB nowB).
Proof.
  intros afterA afterB. subst afterA afterB.
  assert (generateRoomID (Create_UserID reqA)
          ≠ generateRoomID (Create_UserID reqB)) as Hids.
  { intros Heq. apply Hdiff. by injection Heq. }
  split.
  { intros rooms'.
    by rewrite (createRoomHandler_decoded rA reqA uA nowA rooms' HpostA HbodyA). }
  rewrite !(createRoomHandler_decoded rA reqA uA nowA _ HpostA HbodyA).
  rewrite !(createRoomHandler_decoded rB reqB uB nowB _ HpostB HbodyB).
  cbn [snd].
  split; [by apply insert_insert_ne|].
  split; [by rewrite lookup_insert_ne, lookup_insert_eq|apply lookup_insert_eq].
Qed.

Lemma X8_creates_of_different_users_commute_witness :
  (createRoomHandler (H := asciiRuntime) (postCreate "8" "Live") 1 20
     (createRoomHandler (H := asciiRuntime) (postCreate "7" "Audio") 9 10
        emptyStore).2).2
  = (createRoomHandler (H := asciiRuntime) (postCreate "7" "Audio") 9 10
       (createRoomHandler (H := asciiRuntime) (postCreate "8" "Live") 1 20
          emptyStore).2).2.
Proof.
  assert ("7" ≠ "8") as Hdiff by discriminate.
  exact (proj1 (proj2 (X8_creates_of_different_users_commute
                         (H := asciiRuntime)
                         (postCreate "7" "Audio") (postCreate "8" "Live")
                         {| Create_UserID := "7"; Create_RoomType := "Audio" |}
                         {| Create_UserID := "8"; Create_RoomType := "Live" |}
                         9 1 10 20 emptyStore
                         eq_refl eq_refl eq_refl eq_refl Hdiff))).
Defined.

Lemma destroyRoomHandler_decoded_parts `{GoRuntime} r id (rooms : Store) :
  Method r = MethodPost →
  decodeDestroyRoomRequest (Body r) = Some {| Destroy_RoomID := id |} →
  (destroyRoomHandler r rooms).1
  = match rooms !! id with
    | Some _ => EncodeMap [("result", "ok")]
    | None => Error "room not found" StatusNotFound
    end ∧
  (destroyRoomHandler r rooms).2 = delete id rooms.
Proof.
  intros Hm Hd. rewrite (destroyRoomHandler_decoded r _ rooms Hm Hd).
  cbn [Destroy_RoomID].
  destruct (rooms !! id) eqn:Hlook; simpl; [done|]. by rewrite delete_id.
Qed.

(** X9. Destroy requests for different identifiers do not interfere: each
    gets the answer it would get alone, whether it comes before or after
    the other, and both orders leave the same store. *)
Theorem X9_destroys_of_different_rooms_commute `{GoRuntime} r1 r2 id1 id2
    (rooms : Store)
    (Hpost1 : Method r1 = MethodPost)
    (Hbody1 : decodeDestroyRoomRequest (Body r1)
              = Some {| Destroy_RoomID := id1 |})
    (Hpost2 : Method r2 = MethodPost)
    (Hbody2 : decodeDestroyRoomRequest (Body r2)
              = Some {| Destroy_RoomID := id2 |})
    (Hdiff : id1 ≠ id2) :
  (destroyRoomHandler r1 (destroyRoomHandler r2 rooms).2).1
  = (destroyRoomHandler r1 rooms).1 ∧
  (destroyRoomHandler r2 (destroyRoomHandler r1 rooms).2).1
  = (destroyRoomHandler r2 rooms).1 ∧
  (destroyRoomHandler r1 (destroyRoomHandler r2 rooms).2).2
  = (destroyRoomHandler r2 (destroyRoomHandler r1 rooms).2).2.
Proof.
  pose proof (λ rooms, destroyRoomHandler_decoded_parts r1 id1 rooms Hpost1 Hbody1)
    as H1.
  pose proof (λ rooms, destroyRoomHandler_decoded_parts r2 id2 rooms Hpost2 Hbody2)
    as H2.
  rewrite !(proj2 (H1 _)), !(proj2 (H2 _)), !(proj1 (H1 _)), !(proj1 (H2 _)).
  rewrite (lookup_delete_ne rooms id2 id1) by done.
  rewrite (lookup_delete_ne rooms id1 id2) by done.
  split; [done|]. split; [done|]. apply delete_delete.
Qed.

Lemma X9_destroys_of_different_rooms_commute_witness :
  (destroyRoomHandler (H := asciiRuntime) (postDestroy "rm_1")
     (destroyRoomHandler (H := asciiRuntime) (postDestroy "rm_3")
        threeRooms).2).1
  = (destroyRoomHandler (H := asciiRuntime) (postDestroy "rm_1") threeRooms).1.
Proof.
  assert ("rm_1" ≠ "rm_3") as Hdiff by discriminate.
  exact (proj1 (X9_destroys_of_different_rooms_commute (H := asciiRuntime)
                  (postDestroy "rm_1") (postDestroy "rm_3") "rm_1" "rm_3"
                  threeRooms eq_refl eq_refl eq_refl eq_refl Hdiff)).
Defined.

(** X10. A create request and a destroy request for another identifier do
    not interfere: the destroy gets the same answer before and after the
    create, and both orders leave the same store. *)
Theorem X10_create_and_destroy_elsewhere_commute `{GoRuntime} rc rd req id
    u now (rooms : Store)
    (Hpost : Method rc = MethodPost)
    (Hbody : decodeCreateRoomRequest (Body rc) = Some req)
    (Hpost' : Method rd = MethodPost)
    (Hbody' : decodeDestroyRoomRequest (Body rd)
              = Some {| Destroy_RoomID := id |})
    (Hdiff : id ≠ generateRoomID (Create_UserID req)) :
  (destroyRoomHandler rd (createRoomHandler rc u now rooms).2).1
  = (destroyRoomHandler rd rooms).1 ∧
  (destroyRoomHandler rd (createRoomHandler rc u now rooms).2).2
  = (createRoomHandler rc u now (destroyRoomHandler rd rooms).2).2.
Proof.
  pose proof (λ rooms, destroyRoomHandler_decoded_parts rd id rooms Hpost' Hbody')
    as Hd.
  rewrite !(proj2 (Hd _)), !(proj1 (Hd _)).
  rewrite !(createRoomHandler_decoded rc req u now _ Hpost Hbody).
  cbn [snd].
  rewrite lookup_insert_ne by done.
  split; [done|]. by apply delete_insert_ne.
Qed.

Lemma X10_create_and_destroy_elsewhere_commute_witness :
  (destroyRoomHandler (H := asciiRuntime) (postDestroy "rm_2")
     (createRoomHandler (H := asciiRuntime) (postCreate "6" "Live") 2 600
        threeRooms).2).2
  = (createRoomHandler (H := asciiRuntime) (postCreate "6" "Live") 2 600
       (destroyRoomHandler (H := asciiRuntime) (postDestroy "rm_2")
          threeRooms).2).2.
Proof.
  assert ("rm_2" ≠ generateRoomID "6") as Hdiff by discriminate.
  exact (proj2 (X10_create_and_destroy_elsewhere_commute (H := asciiRuntime)
                  (postCreate "6" "Live") (postDestroy "rm_2")
                  {| Create_UserID := "6"; Create_RoomType := "Live" |}
                  "rm_2" 2 600 threeRooms
                  eq_refl eq_refl eq_refl eq_refl Hdiff)).
Defined.

(** ** What the stored and listed rooms look like *)

Lemma roomTypeOf_either `{GoRuntime} (s : string) :
  roomTypeOf s = RoomLive ∨ roomTypeOf s = RoomAudio.
Proof. unfold roomTypeOf. destruct (String.eqb _ _); auto. Qed.

Lemma newRoom_wireValues `{GoRuntime} req u now :
  wireValues (newRoom req u now).
Proof. split; [apply roomTypeOf_either|apply chooseRTC_either]. Qed.

(** X11. In every store the server can be in, each room has the room type
    "Live" or "Audio" and the RTC type "TRTC" or "Agora": no request, with
    whatever room type text, gets another value stored. *)
Theorem X11_reachable_wire_values `{GoRuntime} (rooms : Store) key room
    (Hreach : reachable rooms) (Hlook : rooms !! key = Some room) :
  wireValues room.
Proof.
  revert key room Hlook.
  induction Hreach as [|rooms call resp rooms' _ IH Hstep];
    intros key room Hlook.
  - unfold emptyStore in Hlook. by rewrite lookup_empty in Hlook.
  - destruct Hstep as [rooms r u now Hu|rooms r|rooms r visit Hvisit].
    + destruct (createRoomHandler_cases r u now rooms)
        as [(msg & code & Ho)|(req & Ho)]; rewrite Ho in Hlook;
        simpl in Hlook; [by eapply IH|].
      apply lookup_insert_Some in Hlook as [[_ <-]|[_ Hlook]];
        [apply newRoom_wireValues|by eapply IH].
    + destruct (destroyRoomHandler_cases r rooms) as [Ho|[k Ho]];
        rewrite Ho in Hlook; [by eapply IH|].
      apply lookup_delete_Some in Hlook as [_ Hlook]. by eapply IH.
    + unfold listRoomsHandler in Hlook.
      destruct (negb _); by eapply IH.
Qed.

Lemma threeRooms_reachable : reachable (H := asciiRuntime) threeRooms.
Proof.
  unfold threeRooms.
  eapply reachable_step;
    [eapply reachable_step;
       [eapply reachable_step; [apply reachable_init|]|]|];
    apply (step_create (H := asciiRuntime)); unfold isDraw; lia.
Qed.

Lemma X11_reachable_wire_values_witness :
  wireValues (newRoom (H := asciiRuntime)
                {| Create_UserID := "2"; Create_RoomType := "audio" |} 6 200).
Proof.
  exact (X11_reachable_wire_values (H := asciiRuntime) threeRooms "rm_2" _
           threeRooms_reachable eq_refl).
Defined.

Lemma listed_rooms (r : HttpRequest) (visit : list Room) (rooms : Store) :
  Method r = MethodGet → rangeOver rooms visit →
  ∃ out, listRoomsHandler r visit rooms = (EncodeRooms out, rooms) ∧
         out ≡ₚ (map_to_list rooms).*2 ∧
         StronglySorted newestFirst out.
Proof.
  intros Hm Hvisit. exists (sortSlice lessCreateTime visit).
  split; [by apply listRoomsHandler_get|].
  split; [by rewrite sortSlice_rooms_perm|apply sortSlice_rooms_newestFirst].
Qed.

Lemma elem_of_values (rooms : Store) (room : Room) :
  room ∈ (map_to_list rooms).*2 ↔ ∃ key, rooms !! key = Some room.
Proof.
  rewrite list_elem_of_fmap. split.
  - intros ([key x] & -> & Hin). exists key. by apply elem_of_map_to_list.
  - intros [key Hlook]. exists (key, room). split; [done|].
    by apply elem_of_map_to_list.
Qed.

Lemma entries_values_ids (entries : list (string * Room)) :
  (∀ key room, (key, room) ∈ entries → key = Room_RoomID room) →
  Room_RoomID <$> entries.*2 = entries.*1.
Proof.
  induction entries as [|[key room] entries IH]; intros Hkeys; [done|].
  csimpl. f_equal.
  - symmetry. apply Hkeys. by left.
  - apply IH. intros k x Hin. apply Hkeys. by right.
Qed.

Lemma storeInv_values_ids (rooms : Store) :
  storeInv rooms →
  Room_RoomID <$> (map_to_list rooms).*2 = (map_to_list rooms).*1.
Proof.
  intros Hinv. apply entries_values_ids.
  intros key room Hin%elem_of_map_to_list. by destruct (Hinv key room Hin).
Qed.

(** X12. When every entry of the store is filed under its room's
    identifier, as in every store the server can be in, the list holds no
    two rooms with the same identifier, and each listed room is the one the
    store holds under its identifier. *)
Theorem X12_list_ids_distinct (r : HttpRequest) (visit : list Room)
    (rooms : Store)
    (Hmethod : Method r = MethodGet) (Hvisit : rangeOver rooms visit)
    (Hinv : storeInv rooms) :
  ∃ out,
    (listRoomsHandler r visit rooms).1 = EncodeRooms out ∧
    NoDup (Room_RoomID <$> out) ∧
    (∀ room, room ∈ out ↔ rooms !! Room_RoomID room = Some room).
Proof.
  destruct (listed_rooms r visit rooms Hmethod Hvisit)
    as (out & Hout & Hperm & _).
  exists out. split; [by rewrite Hout|]. split.
  - rewrite Hperm, (storeInv_values_ids rooms Hinv).
    apply NoDup_fst_map_to_list.
  - intros room. rewrite Hperm, elem_of_values. split.
    + intros [key Hlook]. by destruct (Hinv key room Hlook) as [<- _].
    + eauto.
Qed.

Lemma X12_list_ids_distinct_witness :
  ∃ out,
    (listRoomsHandler getList (map_to_list threeRooms).*2 threeRooms).1
    = EncodeRooms out ∧
    NoDup (Room_RoomID <$> out).
Proof.
  destruct (X12_list_ids_distinct getList (map_to_list threeRooms).*2
              threeRooms eq_refl (Permutation_refl _)
              (reachable_storeInv (H := asciiRuntime) threeRooms
                 threeRooms_reachable))
    as (out & Hout & Hnodup & _).
  exists out. split; [exact Hout|exact Hnodup].
Defined.

(** ** The order of the list *)

(** X13. When no two rooms of the store were created in the same second,
    the list does not depend on the order in which the map is visited: any
    two visits give the same response. *)
Theorem X13_list_order_determined (r : HttpRequest) (visit1 visit2 : list Room)
    (rooms : Store)
    (Hvisit1 : rangeOver rooms visit1) (Hvisit2 : rangeOver rooms visit2)
    (Hdistinct : distinctCreateTimes rooms) :
  listRoomsHandler r visit1 rooms = listRoomsHandler r visit2 rooms.
Proof.
  destruct (listRoomsHandler_outcome r visit1 rooms) as [[Hm Ho]|[Hm Ho]];
    rewrite Ho.
  - destruct (listRoomsHandler_outcome r visit2 rooms) as [[_ Ho']|[Hm' _]];
      [by rewrite Ho'|done].
  - rewrite (listRoomsHandler_get r visit2 rooms Hm). do 2 f_equal.
    apply (StronglySorted_unique_strong newestFirst);
      [|apply sortSlice_rooms_newestFirst..|].
    + intros x y Hx Hy Hxy Hyx.
      rewrite sortSlice_rooms_perm in Hx, Hy.
      unfold rangeOver in Hvisit1, Hvisit2. rewrite Hvisit1 in Hx.
      rewrite Hvisit2 in Hy.
      apply elem_of_values in Hx as [kx Hx]. apply elem_of_values in Hy as [ky Hy].
      assert (kx = ky) as ->.
      { apply (Hdistinct kx ky x y Hx Hy). unfold newestFirst in *. lia. }
      congruence.
    + rewrite !sortSlice_rooms_perm. unfold rangeOver in *.
      by rewrite Hvisit1, Hvisit2.
Qed.

Lemma threeRooms_entries key room :
  threeRooms !! key = Some room →
  (key = "rm_1" ∧ Room_CreateTime room = 100) ∨
  (key = "rm_2" ∧ Room_CreateTime room = 200) ∨
  (key = "rm_3" ∧ Room_CreateTime room = 300).
Proof.
  intros Hlook. apply (elem_of_map_to_list threeRooms) in Hlook.
  remember (map_to_list threeRooms) as entries eqn:Hentries.
  vm_compute in Hentries. subst entries.
  repeat (apply elem_of_cons in Hlook as [Hlook|Hlook];
          [injection Hlook as -> ->; auto|]).
  by apply elem_of_nil in Hlook.
Qed.

Lemma threeRooms_distinctCreateTimes : distinctCreateTimes threeRooms.
Proof.
  intros key1 key2 room1 room2 H1 H2 Htime.
  apply threeRooms_entries in H1, H2.
  destruct H1 as [[-> T1]|[[-> T1]|[-> T1]]];
    destruct H2 as [[-> T2]|[[-> T2]|[-> T2]]]; (reflexivity || lia).
Qed.

Lemma X13_list_order_determined_witness :
  listRoomsHandler getList (map_to_list threeRooms).*2 threeRooms
  = listRoomsHandler getList (rev (map_to_list threeRooms).*2) threeRooms.
Proof.
  apply (X13_list_order_determined getList (map_to_list threeRooms).*2
           (rev (map_to_list threeRooms).*2) threeRooms).
  - apply Permutation_refl.
  - apply Permutation_sym, Permutation_rev.
  - exact threeRooms_distinctCreateTimes.
Defined.

(** X14. A room created later than every room the store holds under other
    identifiers comes first in the list that follows. *)
Theorem X14_latest_room_listed_first `{GoRuntime} (rc rl : HttpRequest)
    (req : CreateRoomRequest) (u now : Z) (rooms : Store) (visit : list Room)
    (Hpost : Method rc = MethodPost)
    (Hbody : decodeCreateRoomRequest (Body rc) = Some req)
    (Hget : Method rl = MethodGet)
    (Hvisit : rangeOver (createRoomHandler rc u now rooms).2 visit)
    (Hlater : ∀ key room, rooms !! key = Some room →
                key ≠ generateRoomID (Create_UserID req) →
                Room_CreateTime room < now) :
  ∃ rest,
    (listRoomsHandler rl visit (createRoomHandler rc u now rooms).2).1
    = EncodeRooms (newRoom req u now :: rest).
Proof.
  destruct (listed_rooms rl visit _ Hget Hvisit) as (out & Hout & Hperm & Hsorted).
  rewrite Hout. cbn [fst].
  rewrite (createRoomHandler_decoded rc req u now rooms Hpost Hbody) in Hperm.
  cbn [snd] in Hperm.
  assert (newRoom req u now ∈ out) as Hnew.
  { rewrite Hperm. apply elem_of_values.
    exists (generateRoomID (Create_UserID req)). apply lookup_insert_eq. }
  destruct out as [|head rest]; [by apply elem_of_nil in Hnew|].
  exists rest. do 2 f_equal.
  assert (head ∈ head :: rest) as Hhead by left.
  rewrite Hperm in Hhead. apply elem_of_values in Hhead as [key Hkey].
  apply lookup_insert_Some in Hkey as [[_ Heq]|[Hne Hkey]]; [done|].
  apply elem_of_cons in Hnew as [Heq|Hrest]; [done|].
  apply StronglySorted_cons in Hsorted as [Hfirst _].
  rewrite Forall_forall in Hfirst. specialize (Hfirst _ Hrest).
  specialize (Hlater key head Hkey (not_eq_sym Hne)).
  unfold newestFirst in Hfirst. simpl in Hfirst. lia.
Qed.

Lemma X14_latest_room_listed_first_witness :
  let created :=
    createRoomHandler (H := asciiRuntime) (postCreate "9" "Live") 5 900
      threeRooms in
  ∃ rest,
    (listRoomsHandler getList (map_to_list created.2).*2 created.2).1
    = EncodeRooms
        (newRoom (H := asciiRuntime)
           {| Create_UserID := "9"; Create_RoomType := "Live" |} 5 900 :: rest).
Proof.
  apply (X14_latest_room_listed_first (H := asciiRuntime)
           (postCreate "9" "Live") getList
           {| Create_UserID := "9"; Create_RoomType := "Live" |}
           5 900 threeRooms _ eq_refl eq_refl eq_refl (Permutation_refl _)).
  intros key room Hlook _.
  destruct (threeRooms_entries key room Hlook)
    as [[_ Ht]|[[_ Ht]|[_ Ht]]]; rewrite Ht; reflexivity.
Defined.

Lemma newestFirst_any_two (l : list Room) (i j : nat) (a b : Room) :
  StronglySorted newestFirst l → (i < j)%nat →
  l !! i = Some a → l !! j = Some b →
  Room_CreateTime a >= Room_CreateTime b.
Proof.
  intros Hl. revert i j.
  induction Hl as [|x l Hl IH Hx]; intros i j Hij Ha Hb; [done|].
  destruct j as [|j]; [lia|]. destruct i as [|i]; simpl in *.
  - injection Ha as ->. rewrite Forall_forall in Hx.
    apply Hx. by eapply list_elem_of_lookup_2.
  - apply (IH i j); (done || lia).
Qed.

(** X15. The list has one entry for each room of the store, so it is empty
    exactly when the store is, and of any two of its entries the one listed
    earlier was created no earlier than the other. *)
Theorem X15_list_length_and_order (r : HttpRequest) (visit : list Room)
    (rooms : Store)
    (Hmethod : Method r = MethodGet) (Hvisit : rangeOver rooms visit) :
  ∃ out,
    listRoomsHandler r visit rooms = (EncodeRooms out, rooms) ∧
    length out = size rooms ∧
    (out = [] ↔ rooms = ∅) ∧
    (∀ i j a b, (i < j)%nat → out !! i = Some a → out !! j = Some b →
                Room_CreateTime a >= Room_CreateTime b).
Proof.
  destruct (listed_rooms r visit rooms Hmethod Hvisit)
    as (out & Hout & Hperm & Hsorted).
  assert (length out = size rooms) as Hlen.
  { by rewrite Hperm, length_fmap, length_map_to_list. }
  exists out. split; [done|]. split; [done|]. split.
  - rewrite <- map_size_empty_iff, <- Hlen. symmetry. apply length_zero_iff_nil.
  - intros i j a b. by apply newestFirst_any_two.
Qed.

Lemma X15_list_length_and_order_witness :
  ∃ out,
    listRoomsHandler getList (map_to_list threeRooms).*2 threeRooms
    = (EncodeRooms out, threeRooms) ∧
    length out = 3%nat.
Proof.
  destruct (X15_list_length_and_order getList (map_to_list threeRooms).*2
              threeRooms eq_refl (Permutation_refl _))
    as (out & Hout & Hlen & _).
  exists out. split; [exact Hout|]. rewrite Hlen. reflexivity.
Defined.

(** X16. Once a destroy request is acknowledged, the list that follows
    holds exactly the rooms the store held before under other identifiers:
    the destroyed room is gone from it and no other room is. *)
Theorem X16_destroy_then_list `{GoRuntime} (rd rl : HttpRequest) (id : string)
    (room : Room) (rooms : Store) (visit : list Room)
    (Hpost : Method rd = MethodPost)
    (Hbody : decodeDestroyRoomRequest (Body rd)
             = Some {| Destroy_RoomID := id |})
    (Hstored : rooms !! id = Some room)
    (Hinv : storeInv rooms)
    (Hget : Method rl = MethodGet)
    (Hvisit : rangeOver (destroyRoomHandler rd rooms).2 visit) :
  (destroyRoomHandler rd rooms).1 = EncodeMap [("result", "ok")] ∧
  ∃ out,
    (listRoomsHandler rl visit (destroyRoomHandler rd rooms).2).1
    = EncodeRooms out ∧
    (∀ entry, entry ∈ out ↔
       rooms !! Room_RoomID entry = Some entry ∧ Room_RoomID entry ≠ id) ∧
    S (length out) = size rooms.
Proof.
  destruct (destroyRoomHandler_decoded_parts rd id rooms Hpost Hbody)
    as [Hresp Hstore].
  rewrite Hstored in Hresp. split; [done|].
  destruct (listed_rooms rl visit _ Hget Hvisit) as (out & Hout & Hperm & _).
  rewrite Hstore in Hperm.
  exists out. split; [by rewrite Hout|]. split.
  - intros entry. rewrite Hperm, elem_of_values. split.
    + intros [key [Hne Hlook]%lookup_delete_Some].
      destruct (Hinv key entry Hlook) as [<- _]. done.
    + intros [Hlook Hne]. exists (Room_RoomID entry).
      by apply lookup_delete_Some.
  - rewrite Hperm, length_fmap, length_map_to_list, map_size_delete, Hstored.
    assert (size rooms ≠ 0%nat) as Hsize.
    { apply map_size_non_empty_iff. intros ->. by rewrite lookup_empty in Hstored. }
    lia.
Qed.

Lemma X16_destroy_then_list_witness :
  let destroyed :=
    destroyRoomHandler (H := asciiRuntime) (postDestroy "rm_2") threeRooms in
  ∃ out,
    (listRoomsHandler getList (map_to_list destroyed.2).*2 destroyed.2).1
    = EncodeRooms out ∧
    length out = 2%nat.
Proof.
  destruct (X16_destroy_then_list (H := asciiRuntime)
              (postDestroy "rm_2") getList "rm_2"
              (newRoom (H := asciiRuntime)
                 {| Create_UserID := "2"; Create_RoomType := "audio" |} 6 200)
              threeRooms _ eq_refl eq_refl eq_refl
              (reachable_storeInv (H := asciiRuntime) threeRooms
                 threeRooms_reachable)
              eq_refl (Permutation_refl _))
    as (_ & out & Hout & _ & Hlen).
  exists out. split; [exact Hout|].
  change (size threeRooms) with 3%nat in Hlen. by injection Hlen.
Defined.

(** ** Bodies the decoder refuses, and members it skips *)

Section Decoding.
Context `{GoRuntime}.

Lemma decodeMembers_failed tags members fields :
  (Json.decodeMembers tags members fields false).2 = false.
Proof.
  revert fields. induction members as [|[key v] rest IH]; intros fields; [done|].
  simpl. destruct (Json.findField tags key); [|done]. by destruct v.
Qed.

Lemma decodeMembers_type_error tags members key v fields ok :
  (key, v) ∈ members → is_Some (Json.findField tags key) →
  notStringOrNull v →
  (Json.decodeMembers tags members fields ok).2 = false.
Proof.
  intros Hin [t Ht] Hv. revert fields ok.
  induction members as [|[k x] rest IH]; intros fields ok;
    [by apply elem_of_nil in Hin|].
  apply elem_of_cons in Hin as [Heq|Hin].
  - injection Heq as <- <-. simpl. rewrite Ht.
    destruct v; (done || apply decodeMembers_failed).
  - simpl. destruct (Json.findField tags k); [|by apply IH].
    destruct x; by apply IH.
Qed.

Lemma decodeMembers_app tags before after fields ok :
  Json.decodeMembers tags (before ++ after) fields ok
  = Json.decodeMembers tags after
      (Json.decodeMembers tags before fields ok).1
      (Json.decodeMembers tags before fields ok).2.
Proof.
  revert fields ok. induction before as [|[key v] rest IH]; intros fields ok;
    [done|].
  simpl. destruct (Json.findField tags key); [|done]. by destruct v.
Qed.

Lemma Decode_type_error tags members key v :
  (key, v) ∈ members → is_Some (Json.findField tags key) →
  notStringOrNull v →
  Json.Decode tags (Some (Json.JObject members)) = None.
Proof.
  intros Hin Hfield Hv. unfold Json.Decode.
  pose proof (decodeMembers_type_error tags members key v ∅ true Hin Hfield Hv)
    as Hfail.
  destruct (Json.decodeMembers tags members ∅ true) as [fields ok].
  simpl in Hfail. by rewrite Hfail.
Qed.

Lemma Decode_skips_unknown tags before after key v :
  Json.findField tags key = None →
  Json.Decode tags (Some (Json.JObject (before ++ (key, v) :: after)))
  = Json.Decode tags (Some (Json.JObject (before ++ after))).
Proof.
  intros Hunknown. unfold Json.Decode.
  rewrite !decodeMembers_app. simpl. by rewrite Hunknown.
Qed.

End Decoding.

(** X17. A POST body that gives a field of the create request a value that
    is neither a string nor null (a number, a boolean, an array or an
    object) is answered "invalid request" (400), wherever that member
    stands and whatever the other members are, and no room is stored. *)
Theorem X17_non_string_field_rejected `{GoRuntime} (r : HttpRequest)
    (members : list (string * Json.value)) (key : string) (v : Json.value)
    (u now : Z) (rooms : Store)
    (Hpost : Method r = MethodPost)
    (Hobject : Body r = Some (Json.JObject members))
    (Hmember : (key, v) ∈ members)
    (Hfield : is_Some (Json.findField ["userid"; "room_type"] key))
    (Hvalue : notStringOrNull v) :
  createRoomHandler r u now rooms
  = (Error "invalid request" StatusBadRequest, rooms).
Proof.
  unfold createRoomHandler, decodeCreateRoomRequest.
  rewrite Hpost, Hobject.
  by rewrite (Decode_type_error _ members key v Hmember Hfield Hvalue).
Qed.

Lemma X17_non_string_field_rejected_witness :
  createRoomHandler (H := asciiRuntime)
    {| Method := MethodPost;
       Body := Some (Json.JObject [("room_type", Json.JString "Live");
                                  ("userid", Json.JNumber "5")]) |}
    3 1700000000 threeRooms
  = (Error "invalid request" StatusBadRequest, threeRooms).
Proof.
  apply (X17_non_string_field_rejected (H := asciiRuntime)
           {| Method := MethodPost;
              Body := Some (Json.JObject [("room_type", Json.JString "Live");
                                         ("userid", Json.JNumber "5")]) |}
           [("room_type", Json.JString "Live"); ("userid", Json.JNumber "5")]
           "userid" (Json.JNumber "5") 3 1700000000 threeRooms
           eq_refl eq_refl).
  - right. left.
  - by exists "userid".
  - exact I.
Defined.

(** X18. In a body nested no deeper than the scanner of [encoding/json]
    lets it be, a member whose key belongs to no field of the create
    request is skipped: with or without it, wherever it stands and whatever
    its value, the request is answered the same and leaves the same
    store. *)
Theorem X18_unknown_member_ignored `{GoRuntime}
    (before after : list (string * Json.value)) (key : string)
    (v : Json.value) (m : string) (u now : Z) (rooms : Store)
    (Hdepth : nestingDepth (Json.JObject (before ++ (key, v) :: after))
              ≤ maxNestingDepth)
    (Hunknown : Json.findField ["userid"; "room_type"] key = None) :
  createRoomHandler
    {| Method := m; Body := Some (Json.JObject (before ++ (key, v) :: after)) |}
    u now rooms
  = createRoomHandler
      {| Method := m; Body := Some (Json.JObject (before ++ after)) |}
      u now rooms.
Proof.
  unfold createRoomHandler, decodeCreateRoomRequest. cbn [Method Body].
  by rewrite (Decode_skips_unknown _ before after key v Hunknown).
Qed.

Lemma X18_unknown_member_ignored_witness :
  createRoomHandler (H := asciiRuntime)
    {| Method := MethodPost;
       Body := Some (Json.JObject [("userid", Json.JString "5");
                                  ("token", Json.JArray []);
                                  ("room_type", Json.JString "Live")]) |}
    3 1700000000 emptyStore
  = createRoomHandler (H := asciiRuntime) (postCreate "5" "Live")
      3 1700000000 emptyStore.
Proof.
  apply (X18_unknown_member_ignored (H := asciiRuntime)
           [("userid", Json.JString "5")]
           [("room_type", Json.JString "Live")]
           "token" (Json.JArray []) MethodPost 3 1700000000 emptyStore).
  - vm_compute. discriminate.
  - reflexivity.
Defined.

(** X19. In a store whose entries are filed under "rm_" followed by the
    owner, as in every store the server can be in, a destroy request for an
    identifier that is not of that form, the empty one of a body without
    room_id among them, is answered "room not found" and changes nothing. *)
Theorem X19_destroy_foreign_id_not_found `{GoRuntime} (r : HttpRequest)
    (id : string) (rooms : Store)
    (Hpost : Method r = MethodPost)
    (Hbody : decodeDestroyRoomRequest (Body r)
             = Some {| Destroy_RoomID := id |})
    (Hinv : storeInv rooms)
    (Hforeign : ∀ owner, id ≠ generateRoomID owner) :
  destroyRoomHandler r rooms
  = (Error "room not found" StatusNotFound, rooms).
Proof.
  rewrite (destroyRoomHandler_decoded r _ rooms Hpost Hbody).
  cbn [Destroy_RoomID].
  destruct (rooms !! id) as [room|] eqn:Hlook; [|done].
  destruct (Hinv id room Hlook) as [Hkey Hid].
  destruct (Hforeign (Room_OwnerUserID room)). by rewrite Hkey.
Qed.

Lemma X19_destroy_foreign_id_not_found_witness :
  destroyRoomHandler (H := asciiRuntime)
    {| Method := MethodPost; Body := Some (Json.JObject []) |} threeRooms
  = (Error "room not found" StatusNotFound, threeRooms).
Proof.
  apply (X19_destroy_foreign_id_not_found (H := asciiRuntime)
           {| Method := MethodPost; Body := Some (Json.JObject []) |}
           "" threeRooms eq_refl eq_refl
           (reachable_storeInv (H := asciiRuntime) threeRooms
              threeRooms_reachable)).
  intros owner. discriminate.
Defined.

(** ** Histories *)

Section Histories.
Context `{GoRuntime}.

Lemma step_accounts (rooms rooms' : Store) call resp :
  step rooms call resp rooms' →
  (size rooms' + (if isDestroyed (call, resp) then 1 else 0)
   ≤ size rooms + (if isCreated (call, resp) then 1 else 0))%nat.
Proof.
  intros Hstep.
  destruct Hstep as [rooms r u now Hu|rooms r|rooms r visit Hvisit].
  - destruct (createRoomHandler_cases r u now rooms)
      as [(msg & code & ->)|(req & ->)]; simpl; [lia|].
    rewrite map_size_insert.
    destruct (rooms !! generateRoomID (Create_UserID req)); simpl; lia.
  - destruct (destroyRoomHandler_outcome r rooms)
      as [[_ Ho]|[(_ & _ & Ho)|[(_ & req & _ & _ & Ho)
                               |(_ & req & room & _ & Hlook & Ho)]]];
      rewrite Ho; simpl; try lia.
    rewrite map_size_delete, Hlook.
    assert (size rooms ≠ 0%nat) as Hsize.
    { apply map_size_non_empty_iff. intros ->. by rewrite lookup_empty in Hlook. }
    lia.
  - destruct (listRoomsHandler_outcome r visit rooms) as [[_ Ho]|[_ Ho]];
      rewrite Ho; simpl; lia.
Qed.

Lemma step_provenance (rooms rooms' : Store) call resp key room :
  step rooms call resp rooms' → rooms' !! key = Some room →
  rooms !! key = Some room ∨
  (∃ r, call = CallCreate r ∧ resp = EncodeRoom room).
Proof.
  intros Hstep Hlook.
  destruct Hstep as [rooms r u now Hu|rooms r|rooms r visit Hvisit].
  - destruct (createRoomHandler_cases r u now rooms)
      as [(msg & code & Ho)|(req & Ho)]; rewrite Ho in *; simpl in *;
      [by left|].
    apply lookup_insert_Some in Hlook as [[_ <-]|[_ Hlook]];
      [right; eauto|by left].
  - left. destruct (destroyRoomHandler_cases r rooms) as [Ho|[k Ho]];
      rewrite Ho in Hlook; [done|].
    by apply lookup_delete_Some in Hlook as [_ Hlook].
  - left. destruct (listRoomsHandler_outcome r visit rooms) as [[_ Ho]|[_ Ho]];
      by rewrite Ho in Hlook.
Qed.

End Histories.

(** X20. At any time the number of rooms in the store, plus the number of
    destroy requests acknowledged so far, is at most the number of create
    requests answered with a room so far. *)
Theorem X20_rooms_accounted_for `{GoRuntime}
    (log : list (Call * HttpResponse)) (rooms : Store)
    (Hruns : runs log rooms) :
  (size rooms + countWhere isDestroyed log ≤ countWhere isCreated log)%nat.
Proof.
  induction Hruns as [|log rooms call resp rooms' _ IH Hstep].
  - unfold emptyStore, countWhere. rewrite map_size_empty. simpl. lia.
  - pose proof (step_accounts rooms rooms' call resp Hstep) as Hacc.
    unfold countWhere in *. cbn [List.filter]. revert Hacc.
    destruct (isDestroyed (call, resp)), (isCreated (call, resp));
      cbn [length]; lia.
Qed.

Lemma X20_rooms_accounted_for_witness :
  let created :=
    createRoomHandler (H := asciiRuntime) (postCreate "5" "Live") 3 1700000000
      emptyStore in
  (size created.2 ≤ 1)%nat.
Proof.
  intros created.
  assert (isDraw 3) as Hu by (unfold isDraw; lia).
  pose proof (X20_rooms_accounted_for (H := asciiRuntime)
                [(CallCreate (postCreate "5" "Live"), created.1)] created.2
                (runs_step [] emptyStore _ _ _ (runs_start (H := asciiRuntime))
                   (step_create (H := asciiRuntime) emptyStore
                      (postCreate "5" "Live") 3 1700000000 Hu))) as Hbound.
  exact Hbound.
Defined.

(** X21. Every room in the store was returned, as it stands, by a create
    request answered earlier: the server never stores a room that no client
    was sent, and never alters a stored room. *)
Theorem X21_stored_rooms_were_returned `{GoRuntime}
    (log : list (Call * HttpResponse)) (rooms : Store) key room
    (Hruns : runs log rooms) (Hlook : rooms !! key = Some room) :
  ∃ r, (CallCreate r, EncodeRoom room) ∈ log.
Proof.
  revert key room Hlook.
  induction Hruns as [|log rooms call resp rooms' _ IH Hstep];
    intros key room Hlook.
  - unfold emptyStore in Hlook. by rewrite lookup_empty in Hlook.
  - destruct (step_provenance rooms rooms' call resp key room Hstep Hlook)
      as [Hold|(r & -> & ->)].
    + destruct (IH key room Hold) as [r Hr]. exists r. by right.
    + exists r. by left.
Qed.

Lemma X21_stored_rooms_were_returned_witness :
  let created :=
    createRoomHandler (H := asciiRuntime) (postCreate "5" "Live") 3 1700000000
      emptyStore in
  ∃ r, (CallCreate r,
        EncodeRoom (newRoom (H := asciiRuntime)
                      {| Create_UserID := "5"; Create_RoomType := "Live" |}
                      3 1700000000))
       ∈ [(CallCreate (postCreate "5" "Live"), created.1)].
Proof.
  intros created.
  assert (isDraw 3) as Hu by (unfold isDraw; lia).
  exact (X21_stored_rooms_were_returned (H := asciiRuntime)
           [(CallCreate (postCreate "5" "Live"), created.1)] created.2
           "rm_5" _
           (runs_step [] emptyStore _ _ _ (runs_start (H := asciiRuntime))
              (step_create (H := asciiRuntime) emptyStore
                 (postCreate "5" "Live") 3 1700000000 Hu))
           eq_refl).
Defined.
